(** * Spec3 racing chatbot: the query router and its serverless variant

    A shallow embedding of [main.py] (the standalone server: classifier,
    source queriers, hybrid synthesis, orchestrator) and of
    [lambda-functions/chatbot-lambda/index.py] (the knowledge-base handler
    with its direct-model fallback), followed by the properties the design
    document states about them.

    Python [str] values are Rocq strings holding the UTF-8 bytes of the
    text.  Substring tests against ASCII patterns, prefix tests and
    concatenation agree on bytes and on code points.  Python dictionaries
    built by the program are [gmap string json]; JSON documents received
    from outside keep their field order in an association list. *)

From Stdlib Require Import ZArith Ascii String Bool.
From stdpp Require Import base option gmap strings list pretty.

Set Warnings "-register-all".
Local Open Scope Z_scope.

(** ** Python strings *)

Module PyStr.

(** [s.startswith(p)] *)
Fixpoint startswith (p s : string) : bool :=
  match p, s with
  | EmptyString, _ => true
  | String a p', String b s' => Ascii.eqb a b && startswith p' s'
  | String _ _, EmptyString => false
  end.

(** [w in s] for two strings: [w] occurs at some position of [s]. *)
Fixpoint contains (w s : string) : bool :=
  startswith w s ||
  match s with
  | EmptyString => false
  | String _ s' => contains w s'
  end.

(** [any(word in text for word in words)] *)
Definition any_in (words : list string) (text : string) : bool :=
  existsb (fun word => contains word text) words.

(** [s.split(sep)] for a one-character separator: never the empty list. *)
Fixpoint split (sep : ascii) (s : string) : list string :=
  match s with
  | EmptyString => [EmptyString]
  | String c s' =>
      if Ascii.eqb c sep then EmptyString :: split sep s'
      else match split sep s' with
           | h :: t => String c h :: t
           | [] => [String c EmptyString]
           end
  end.

(** The characters [str.strip()] removes, among the single-byte ones:
    tab, line feed, vertical tab, form feed, carriage return, the four
    separators 0x1c to 0x1f and the space. *)
Definition isspace (c : ascii) : bool :=
  let n := nat_of_ascii c in
  ((9 <=? n)%nat && (n <=? 13)%nat) || ((28 <=? n)%nat && (n <=? 32)%nat).

Fixpoint lstrip (s : string) : string :=
  match s with
  | EmptyString => EmptyString
  | String c s' => if isspace c then lstrip s' else s
  end.

Fixpoint rstrip (s : string) : string :=
  match s with
  | EmptyString => EmptyString
  | String c s' =>
      match rstrip s' with
      | EmptyString => if isspace c then EmptyString else String c EmptyString
      | r => String c r
      end
  end.

(** [s.strip()] *)
Definition strip (s : string) : string := rstrip (lstrip s).

(** A byte that continues a UTF-8 sequence (binary 10xxxxxx). *)
Definition is_continuation (c : ascii) : bool :=
  let n := nat_of_ascii c in (128 <=? n)%nat && (n <? 192)%nat.

Fixpoint take_continuation (s : string) : string :=
  match s with
  | String c s' =>
      if is_continuation c then String c (take_continuation s') else EmptyString
  | EmptyString => EmptyString
  end.

Fixpoint drop_continuation (s : string) : string :=
  match s with
  | String c s' => if is_continuation c then drop_continuation s' else s
  | EmptyString => EmptyString
  end.

(** The code points of a string, each as the string of its bytes. The
    fuel is the byte length, which bounds the number of code points. *)
Fixpoint chars_fuel (fuel : nat) (s : string) : list string :=
  match fuel, s with
  | S fuel', String c s' =>
      String c (take_continuation s') :: chars_fuel fuel' (drop_continuation s')
  | _, _ => []
  end.

Definition chars (s : string) : list string := chars_fuel (String.length s) s.

(** ASCII lower-casing, byte by byte: what [str.lower()] does on text
    made of ASCII characters. *)
Definition ascii_lower_char (c : ascii) : ascii :=
  let n := nat_of_ascii c in
  if (65 <=? n)%nat && (n <=? 90)%nat then ascii_of_nat (n + 32) else c.

Fixpoint ascii_lower (s : string) : string :=
  match s with
  | EmptyString => EmptyString
  | String c s' => String (ascii_lower_char c) (ascii_lower s')
  end.

(** The line feed and the twelve spaces of indentation that the
    triple-quoted template of [_query_both_sources] carries. *)
Definition nl : string := String (ascii_of_nat 10) EmptyString.
Definition indent12 : string := "            ".

(** [w] occurs in [s]: the specification of [contains]. *)
Definition substring_of (w s : string) : Prop :=
  exists pre post : string, s = pre +:+ w +:+ post.

(** Some word of the list occurs in the text. *)
Definition mentions (words : list string) (text : string) : Prop :=
  exists word : string, In word words /\ substring_of word text.

End PyStr.

(** ** Python values of JSON shape *)

(** What [json.loads] returns and what the program passes around as
    [Any]: [None], booleans, integers, floats (kept as the text Python
    prints for them), strings, lists, and dicts with string keys in
    insertion order. *)
Inductive json : Type :=
| JNull
| JBool (b : bool)
| JInt (n : Z)
| JFloat (printed : string)
| JStr (s : string)
| JList (items : list json)
| JDict (fields : list (string * json)).

(** The exceptions the program can meet, all subclasses of [Exception]
    (the only ones its [except Exception] clauses catch). *)
Inductive exn : Type :=
| KeyError (key : json)
| IndexError
| TypeError
| AttributeError
| ValidationError
| OtherError (text : string).

(** The result of running a block that may raise. *)
Inductive outcome (A : Type) : Type :=
| Ret (a : A)
| Raise (e : exn).

Arguments Ret {A} a.
Arguments Raise {A} e.

#[global] Instance outcome_ret : MRet outcome := fun A a => Ret a.
#[global] Instance outcome_bind : MBind outcome := fun A B f c =>
  match c with
  | Ret a => f a
  | Raise e => Raise e
  end.

(** [try: body / except Exception as e: handler(e)] where both branches
    return. *)
Definition try_except {A : Type} (body : outcome A) (handler : exn -> A) : A :=
  match body with
  | Ret a => a
  | Raise e => handler e
  end.

Module Py.

(** First binding of a key in a JSON object. *)
Fixpoint assoc (k : string) (fields : list (string * json)) : option json :=
  match fields with
  | [] => None
  | (k', v) :: rest => if String.eqb k k' then Some v else assoc k rest
  end.

(** [v[k]] with a string key. *)
Definition getitem_key (v : json) (k : string) : outcome json :=
  match v with
  | JDict fields =>
      match assoc k fields with
      | Some x => Ret x
      | None => Raise (KeyError (JStr k))
      end
  | _ => Raise TypeError
  end.

(** [v[i]] with a non-negative integer index. A JSON object has no
    integer keys, so indexing one raises [KeyError]. *)
Definition getitem_index (v : json) (i : nat) : outcome json :=
  match v with
  | JList items =>
      match items !! i with
      | Some x => Ret x
      | None => Raise IndexError
      end
  | JStr s =>
      match PyStr.chars s !! i with
      | Some c => Ret (JStr c)
      | None => Raise IndexError
      end
  | JDict _ => Raise (KeyError (JInt (Z.of_nat i)))
  | _ => Raise TypeError
  end.

(** [k in v] with a string [k]: key membership for a dict, element
    membership for a list, substring test for a string. *)
Definition contains (k : string) (v : json) : outcome bool :=
  match v with
  | JDict fields => Ret (bool_decide (is_Some (assoc k fields)))
  | JList items =>
      Ret (existsb (fun x => match x with JStr s => String.eqb s k | _ => false end) items)
  | JStr s => Ret (PyStr.contains k s)
  | _ => Raise TypeError
  end.

(** [len(v)] *)
Definition len (v : json) : outcome nat :=
  match v with
  | JList items => Ret (length items)
  | JDict fields => Ret (length fields)
  | JStr s => Ret (length (PyStr.chars s))
  | _ => Raise TypeError
  end.

(** Truth value of a Python object, as [not v] and [if v] use it. *)
Definition truthy (v : json) : bool :=
  match v with
  | JNull => false
  | JBool b => b
  | JInt n => negb (n =? 0)
  | JFloat p => negb (String.eqb p "0.0" || String.eqb p "-0.0")
  | JStr s => negb (String.eqb s "")
  | JList items => match items with [] => false | _ => true end
  | JDict fields => match fields with [] => false | _ => true end
  end.

(** [a + b] where both operands are lists, the only use the program
    makes of [+] on values taken out of a dict. Other operand types are
    not modelled and raise. *)
Definition add (a b : json) : outcome json :=
  match a, b with
  | JList xs, JList ys => Ret (JList (xs ++ ys))
  | _, _ => Raise TypeError
  end.

(** [d[k]] on a dict the program built. *)
Definition dict_getitem (d : gmap string json) (k : string) : outcome json :=
  match d !! k with
  | Some v => Ret v
  | None => Raise (KeyError (JStr k))
  end.

(** [v.get(k, dflt)]: only dicts have the method. *)
Definition get (v : json) (k : string) (dflt : json) : outcome json :=
  match v with
  | JDict fields => Ret (default dflt (assoc k fields))
  | _ => Raise AttributeError
  end.

(** [l[-1]] *)
Definition getitem_last {A : Type} (l : list A) : outcome A :=
  match last l with
  | Some x => Ret x
  | None => Raise IndexError
  end.

End Py.

(** ** The interpreter and its libraries

    The built-ins whose tables are not part of the program: Unicode
    lower-casing, [repr] of a non-string object, the message text of an
    exception, the [json] codec, and what pydantic does with a value that
    is not a [str] in a [str] field (rejected or converted, depending on
    its version). Every result below holds for any implementation of
    them. *)
Class Builtins : Type := {
  str_lower : string -> string;
  obj_repr : json -> string;
  exn_str : exn -> string;
  json_loads : string -> outcome json;
  json_dumps : json -> string;
  pydantic_str : json -> outcome string;
  json_loads_empty_object : json_loads "{}" = Ret (JDict [])
}.

(** The environment of one request: configuration variables, the two
    remote services and the clock. [invoke_model w model_id body] is what
    [response['body'].read()] yields, or the exception the call raised. *)
Record World : Type := {
  environ : gmap string string;
  invoke_model : string -> string -> outcome string;
  retrieve_and_generate : json -> json -> outcome json;
  now_isoformat : string
}.

Section Formatting.
Context {py : Builtins}.

(** [str(v)], also what an f-string field [{v}] expands to. *)
Definition py_str (v : json) : string :=
  match v with
  | JStr s => s
  | _ => obj_repr v
  end.

(** [json.loads(v)]: the argument must be text. *)
Definition py_json_loads (v : json) : outcome json :=
  match v with
  | JStr s => json_loads s
  | _ => Raise TypeError
  end.

(** pydantic validation of a field annotated [str]. *)
Definition validate_str (v : json) : outcome string :=
  match v with
  | JStr s => Ret s
  | _ => pydantic_str v
  end.

(** pydantic validation of a field annotated [list]. *)
Definition validate_list (v : json) : outcome (list json) :=
  match v with
  | JList items => Ret items
  | _ => Raise ValidationError
  end.

End Formatting.

(** ** main.py: the standalone server *)

Module Main.

(** [class ChatMessage(BaseModel)] *)
Record ChatMessage : Type := {
  message : string;
  session_id : string
}.

(** [class ChatResponse(BaseModel)]; [timestamp] defaults to [None]. *)
Record ChatResponse : Type := {
  response : string;
  sources : list json;
  timestamp : option string
}.

Definition rules_keywords : list string :=
  ["rulebook"; "regulation"; "legal"; "allowed"; "requirement"; "spec"; "rule"].

Definition dynamic_keywords : list string :=
  ["part"; "price"; "schedule"; "race"; "event"; "upcoming"; "cost"].

Definition hybrid_keywords : list string :=
  ["build"; "car"; "setup"; "recommend"].

(** The request body both model calls of this file send. *)
Definition claude_request (max_tokens : Z) (content : string) : json :=
  JDict [("anthropic_version", JStr "bedrock-2023-05-31");
         ("max_tokens", JInt max_tokens);
         ("messages", JList [JDict [("role", JStr "user"); ("content", JStr content)]])].

Definition claude_model : string := "anthropic.claude-3-sonnet-20240229-v1:0".

Section WithBuiltins.
Context {py : Builtins}.

(** Validation of a request body into a [ChatMessage]: [message] is
    required, [session_id] falls back to its declared default. *)
Definition ChatMessage_validate (body : json) : outcome ChatMessage :=
  match body with
  | JDict fields =>
      match Py.assoc "message" fields with
      | None => Raise ValidationError
      | Some m =>
          msg ← validate_str m;
          sid ← match Py.assoc "session_id" fields with
                | None => Ret "default"
                | Some s => validate_str s
                end;
          Ret {| message := msg; session_id := sid |}
      end
  | _ => Raise ValidationError
  end.

(** [ChatResponse(response=..., sources=..., timestamp=...)] *)
Definition ChatResponse_new (r s : json) (t : string) : outcome ChatResponse :=
  r' ← validate_str r;
  s' ← validate_list s;
  Ret {| response := r'; sources := s'; timestamp := Some t |}.

(** [Spec3Chatbot._classify_query] *)
Definition _classify_query (message : string) : string :=
  let message_lower := str_lower message in
  if PyStr.any_in hybrid_keywords message_lower then "hybrid"
  else if PyStr.any_in rules_keywords message_lower then "rules"
  else if PyStr.any_in dynamic_keywords message_lower then "parts_or_schedule"
  else "general".

(** The [try] block shared by the two model calls: invoke, parse,
    take [result['content'][0]['text']]. *)
Definition invoke_for_text (w : World) (max_tokens : Z) (content : string)
  : outcome json :=
  raw ← invoke_model w claude_model (json_dumps (claude_request max_tokens content));
  result ← json_loads raw;
  c ← Py.getitem_key result "content";
  c0 ← Py.getitem_index c 0;
  Py.getitem_key c0 "text".

(** [Spec3Chatbot._query_knowledge_base] *)
Definition _query_knowledge_base (w : World) (message : string)
  : gmap string json :=
  try_except
    (text ← invoke_for_text w 1000
       ("Based on the Spec3 racing rulebook and documentation, please answer: "
        +:+ message);
     Ret ({[ "answer" := text;
             "sources" := JList [JStr "Spec3 Rulebook"] ]} : gmap string json))
    (fun e =>
       {[ "answer" := JStr ("Error querying knowledge base: " +:+ exn_str e);
          "sources" := JList [] ]}).

(** The f-string the placeholder querier answers with. *)
Definition mcp_answer (message : string) : string :=
  "MCP query result for: " +:+ message +:+ " (placeholder - implement MCP client)".

(** [Spec3Chatbot._query_mcp_server]: the [try] block only builds a
    dict, so its handler is never entered. *)
Definition _query_mcp_server (message : string) : gmap string json :=
  try_except
    (Ret ({[ "answer" := JStr (mcp_answer message);
             "sources" := JList [JStr "Google Sheets via MCP"] ]}
          : gmap string json))
    (fun e =>
       {[ "answer" := JStr ("Error querying MCP server: " +:+ exn_str e);
          "sources" := JList [] ]}).

(** The f-string template of [_query_both_sources], before [strip]. *)
Definition combined_template (rules_answer data_answer : json) : string :=
  PyStr.nl +:+ PyStr.indent12 +:+ "Based on the rules: " +:+ py_str rules_answer
  +:+ PyStr.nl +:+ PyStr.indent12
  +:+ PyStr.nl +:+ PyStr.indent12 +:+ "Current data: " +:+ py_str data_answer
  +:+ PyStr.nl +:+ PyStr.indent12.

(** [Spec3Chatbot._query_both_sources]. [asyncio.gather] awaits both
    coroutines and returns their results in argument order. *)
Definition _query_both_sources (w : World) (message : string)
  : gmap string json :=
  try_except
    (let rules_response := _query_knowledge_base w message in
     let data_response := _query_mcp_server message in
     ra ← Py.dict_getitem rules_response "answer";
     da ← Py.dict_getitem data_response "answer";
     let combined_answer := combined_template ra da in
     rs ← Py.dict_getitem rules_response "sources";
     ds ← Py.dict_getitem data_response "sources";
     all_sources ← Py.add rs ds;
     Ret ({[ "answer" := JStr (PyStr.strip combined_answer);
             "sources" := all_sources ]} : gmap string json))
    (fun e =>
       {[ "answer" := JStr ("Error querying multiple sources: " +:+ exn_str e);
          "sources" := JList [] ]}).

(** [Spec3Chatbot._handle_general_query] *)
Definition _handle_general_query (w : World) (message : string)
  : gmap string json :=
  try_except
    (text ← invoke_for_text w 500
       ("You are a helpful assistant for Spec3 racing. Answer this question: "
        +:+ message);
     Ret ({[ "answer" := text;
             "sources" := JList [JStr "General Spec3 Knowledge"] ]}
          : gmap string json))
    (fun _ =>
       {[ "answer" :=
            JStr "I'm here to help with Spec3 racing questions! Could you be more specific?";
          "sources" := JList [] ]}).

(** The [return ChatResponse(...)] statement of [process_message],
    applied to the provider result it is handed. *)
Definition package_response (w : World) (provider_result : gmap string json)
  : outcome ChatResponse :=
  ChatResponse_new
    (default (JStr "Sorry, I could not find an answer.") (provider_result !! "answer"))
    (default (JList []) (provider_result !! "sources"))
    (now_isoformat w).

(** The provider result [process_message] selects for a message. *)
Definition route (w : World) (message : string) : gmap string json :=
  let query_type := _classify_query message in
  if String.eqb query_type "rules" then _query_knowledge_base w message
  else if String.eqb query_type "parts_or_schedule" then _query_mcp_server message
  else if String.eqb query_type "hybrid" then _query_both_sources w message
  else _handle_general_query w message.

(** [Spec3Chatbot.process_message]; [session_id] is accepted and not
    used. *)
Definition process_message (w : World) (message session_id : string)
  : outcome ChatResponse :=
  package_response w (route w message).

(** What the [/chat] route answers: the response model, or the
    [HTTPException] with status 500 and the error text as detail. *)
Inductive http_result : Type :=
| Http200 (r : ChatResponse)
| Http500 (detail : string).

(** [chat_endpoint] *)
Definition chat_endpoint (w : World) (m : ChatMessage) : http_result :=
  try_except
    (r ← process_message w (message m) (session_id m); Ret (Http200 r))
    (fun e => Http500 (exn_str e)).

End WithBuiltins.

End Main.


(** ** lambda-functions/chatbot-lambda/index.py: the serverless variant *)

Module ChatbotLambda.

(** The dict the handler returns to the Lambda runtime. *)
Record LambdaResponse : Type := {
  statusCode : Z;
  headers : list (string * string);
  body : string
}.

Definition ok_headers : list (string * string) :=
  [("Content-Type", "application/json");
   ("Access-Control-Allow-Origin", "*");
   ("Access-Control-Allow-Headers", "Content-Type");
   ("Access-Control-Allow-Methods", "POST, OPTIONS")].

Definition error_headers : list (string * string) :=
  [("Content-Type", "application/json");
   ("Access-Control-Allow-Origin", "*")].

Definition nova_model_id : string := "us.amazon.nova-premier-v1:0".

(** The model identifier derived from [MODEL_ARN]; [process_message] and
    [fallback_response] each carry a copy of these lines. *)
Definition model_id_of_arn (model_arn : string) : outcome string :=
  if PyStr.startswith "arn:aws:bedrock:" model_arn then
    if PyStr.contains "inference-profile" model_arn then Ret nova_model_id
    else Py.getitem_last (PyStr.split "/" model_arn)
  else Ret model_arn.

(** The two request formats of [fallback_response]. *)
Definition nova_request (message : json) : json :=
  JDict [("messages", JList [JDict [("role", JStr "user"); ("content", message)]]);
         ("maxTokens", JInt 1000);
         ("temperature", JFloat "0.7");
         ("topP", JFloat "0.9")].

Definition claude_request (message : json) : json :=
  JDict [("anthropic_version", JStr "bedrock-2023-05-31");
         ("max_tokens", JInt 1000);
         ("messages", JList [JDict [("role", JStr "user"); ("content", message)]])].

(** [request_body] as chosen by ['nova-premier' in model_id]. *)
Definition request_body (model_id : string) (message : json) : json :=
  if PyStr.contains "nova-premier" model_id then nova_request message
  else claude_request message.

(** The arguments of [bedrock_agent.retrieve_and_generate]. *)
Definition rag_input (message : json) : json := JDict [("text", message)].

Definition rag_configuration (knowledge_base_id model_arn : string) : json :=
  JDict [("type", JStr "KNOWLEDGE_BASE");
         ("knowledgeBaseConfiguration",
          JDict [("knowledgeBaseId", JStr knowledge_base_id);
                 ("modelArn", JStr model_arn);
                 ("retrievalConfiguration",
                  JDict [("vectorSearchConfiguration",
                          JDict [("numberOfResults", JInt 5)])]);
                 ("generationConfiguration",
                  JDict [("promptTemplate",
                          JDict [("textPromptTemplate",
                                  JStr "Based on the following search results, answer the user question: $search_results$\n\nQuestion: {question}\n\nAnswer:")])])])].

Section WithBuiltins.
Context {py : Builtins}.

(** [response_body['content'][0]['text']] *)
Definition first_content_text (response_body : json) : outcome json :=
  c ← Py.getitem_key response_body "content";
  c0 ← Py.getitem_index c 0;
  Py.getitem_key c0 "text".

(** The Nova branch of the response parser. *)
Definition parse_nova (response_body : json) : outcome json :=
  has_content ← Py.contains "content" response_body;
  nonempty ← (if has_content : bool then
                c ← Py.getitem_key response_body "content";
                n ← Py.len c;
                Ret (0 <? n)%nat
              else Ret false);
  if nonempty : bool then first_content_text response_body
  else
    has_completion ← Py.contains "completion" response_body;
    if has_completion : bool then Py.getitem_key response_body "completion"
    else Ret (JStr (py_str response_body)).

(** The other branch of the response parser. *)
Definition parse_claude (response_body : json) : outcome json :=
  first_content_text response_body.

(** [result] as parsed according to ['nova-premier' in model_id]. *)
Definition parse_response (model_id : string) (response_body : json) : outcome json :=
  if PyStr.contains "nova-premier" model_id then parse_nova response_body
  else parse_claude response_body.

Definition apology (e : exn) : json :=
  JStr ("I apologize, but I'm having trouble processing your request right now. Error: "
        +:+ exn_str e).

(** The [try] block of [fallback_response]. *)
Definition fallback_body (w : World) (message : json) : outcome json :=
  let model_arn := default "" (environ w !! "MODEL_ARN") in
  model_id ← model_id_of_arn model_arn;
  raw ← invoke_model w model_id (json_dumps (request_body model_id message));
  response_body ← json_loads raw;
  parse_response model_id response_body.

(** [fallback_response] *)
Definition fallback_response (w : World) (message : json) : json :=
  try_except (fallback_body w message) apology.

(** The [try] block of [process_message]. *)
Definition process_body (w : World) (message session_id : json) : outcome json :=
  let model_arn := default "" (environ w !! "MODEL_ARN") in
  let knowledge_base_id := default "" (environ w !! "KNOWLEDGE_BASE_ID") in
  model_id ← model_id_of_arn model_arn;
  if String.eqb knowledge_base_id "" then Ret (fallback_response w message)
  else
    response ← retrieve_and_generate w (rag_input message)
                 (rag_configuration knowledge_base_id model_arn);
    output ← Py.getitem_key response "output";
    Py.getitem_key output "text".

(** [process_message] *)
Definition process_message (w : World) (message session_id : json) : json :=
  try_except (process_body w message session_id)
             (fun _ => fallback_response w message).

(** The [try] block of [handler]. *)
Definition handler_body (w : World) (event : gmap string json)
  : outcome LambdaResponse :=
  body ← py_json_loads (default (JStr "{}") (event !! "body"));
  user_message ← Py.get body "message" (JStr "");
  session_id ← Py.get body "session_id" (JStr "default");
  let user_message :=
    if negb (Py.truthy user_message) && bool_decide (is_Some (event !! "messages"))
    then default (JStr "") (event !! "messages")
    else user_message in
  let response := process_message w user_message session_id in
  Ret {| statusCode := 200;
         headers := ok_headers;
         body := json_dumps (JDict [("response", response);
                                    ("session_id", session_id)]) |}.

(** [handler] *)
Definition handler (w : World) (event : gmap string json) : LambdaResponse :=
  try_except (handler_body w event)
    (fun e => {| statusCode := 500;
                 headers := error_headers;
                 body := json_dumps (JDict [("error", JStr (exn_str e))]) |}).

End WithBuiltins.

End ChatbotLambda.


(** ** A reference interpreter for running the model

    One implementation of [Builtins], used to evaluate the model on
    concrete requests. Lower-casing is the ASCII one; [repr] and
    [json.dumps] print strings between quotes without escapes, which is
    what Python prints for text made of letters, digits, spaces and
    punctuation other than quotes and backslashes; [json.loads] knows the
    documents of a table; a [str] field accepts only a [str]. *)

Module Reference.

Definition dq : string := String (ascii_of_nat 34) EmptyString.

(** [repr(v)] *)
Fixpoint repr (v : json) : string :=
  match v with
  | JNull => "None"
  | JBool true => "True"
  | JBool false => "False"
  | JInt n => pretty n
  | JFloat p => p
  | JStr s => "'" +:+ s +:+ "'"
  | JList items =>
      "[" +:+
      (fix go (l : list json) : string :=
         match l with
         | [] => ""
         | x :: rest =>
             match rest with
             | [] => repr x
             | _ :: _ => repr x +:+ ", " +:+ go rest
             end
         end) items +:+ "]"
  | JDict fields =>
      "{" +:+
      (fix go (l : list (string * json)) : string :=
         match l with
         | [] => ""
         | (k, x) :: rest =>
             match rest with
             | [] => "'" +:+ k +:+ "': " +:+ repr x
             | _ :: _ => "'" +:+ k +:+ "': " +:+ repr x +:+ ", " +:+ go rest
             end
         end) fields +:+ "}"
  end.

(** [json.dumps(v)] with the default separators. *)
Fixpoint dumps (v : json) : string :=
  match v with
  | JNull => "null"
  | JBool true => "true"
  | JBool false => "false"
  | JInt n => pretty n
  | JFloat p => p
  | JStr s => dq +:+ s +:+ dq
  | JList items =>
      "[" +:+
      (fix go (l : list json) : string :=
         match l with
         | [] => ""
         | x :: rest =>
             match rest with
             | [] => dumps x
             | _ :: _ => dumps x +:+ ", " +:+ go rest
             end
         end) items +:+ "]"
  | JDict fields =>
      "{" +:+
      (fix go (l : list (string * json)) : string :=
         match l with
         | [] => ""
         | (k, x) :: rest =>
             match rest with
             | [] => dq +:+ k +:+ dq +:+ ": " +:+ dumps x
             | _ :: _ => dq +:+ k +:+ dq +:+ ": " +:+ dumps x +:+ ", " +:+ go rest
             end
         end) fields +:+ "}"
  end.

(** [str(e)]: a [KeyError] prints the [repr] of its key; the texts of
    the other built-in errors vary between interpreter versions and are
    shortened to the name of the class. *)
Definition error_text (e : exn) : string :=
  match e with
  | KeyError k => repr k
  | IndexError => "index out of range"
  | TypeError => "TypeError"
  | AttributeError => "AttributeError"
  | ValidationError => "ValidationError"
  | OtherError text => text
  end.

(** [json.loads] restricted to the empty object and the documents of
    [docs]; anything else is reported as malformed. *)
Definition loads (docs : list (string * json)) (s : string) : outcome json :=
  if String.eqb s "{}" then Ret (JDict [])
  else match Py.assoc s docs with
       | Some v => Ret v
       | None => Raise (OtherError "Expecting value: line 1 column 1 (char 0)")
       end.

#[local] Instance builtins (docs : list (string * json)) : Builtins := {|
  str_lower := PyStr.ascii_lower;
  obj_repr := repr;
  exn_str := error_text;
  json_loads := loads docs;
  json_dumps := dumps;
  pydantic_str := fun _ => Raise ValidationError;
  json_loads_empty_object := eq_refl
|}.

(** A world whose model endpoint answers every call with [reply]. *)
Definition world (env : list (string * string)) (reply : outcome string)
  : World := {|
  environ := list_to_map env;
  invoke_model := fun _ _ => reply;
  retrieve_and_generate := fun _ _ => Raise (OtherError "ResourceNotFoundException");
  now_isoformat := "2024-05-01T12:00:00.000000"
|}.

(** Some model replies, as text and as parsed. *)
Definition reply_text (text : string) : string :=
  "{" +:+ dq +:+ "content" +:+ dq +:+ ": [{" +:+ dq +:+ "text" +:+ dq +:+ ": "
  +:+ dq +:+ text +:+ dq +:+ "}]}".

Definition reply_json (text : string) : json :=
  JDict [("content", JList [JDict [("text", JStr text)]])].

(** Two settings of [MODEL_ARN]: an inference profile that names a
    Claude model, and a plain Claude model identifier. *)
Definition profile_arn : string :=
  "arn:aws:bedrock:us-east-1:123456789012:inference-profile/us.anthropic.claude-3-5-sonnet-20241022-v2:0".

Definition claude_id : string := "anthropic.claude-3-sonnet-20240229-v1:0".

(** A reply that carries no answer field, as text and as parsed. *)
Definition no_answer_text : string :=
  "{" +:+ dq +:+ "stopReason" +:+ dq +:+ ": " +:+ dq +:+ "end_turn" +:+ dq +:+ "}".

Definition no_answer_json : json := JDict [("stopReason", JStr "end_turn")].

(** A request body that supplies a session identifier. *)
Definition session_request : string :=
  "{" +:+ dq +:+ "message" +:+ dq +:+ ": " +:+ dq +:+ "hello" +:+ dq +:+ ", "
  +:+ dq +:+ "session_id" +:+ dq +:+ ": " +:+ dq +:+ "abc-123" +:+ dq +:+ "}".

(** The documents the reference [json.loads] knows. *)
Definition docs : list (string * json) :=
  [(reply_text "Slicks are not allowed.", reply_json "Slicks are not allowed.");
   (reply_text "", reply_json "");
   (session_request, JDict [("message", JStr "hello"); ("session_id", JStr "abc-123")]);
   (no_answer_text, no_answer_json)].

(** The reference interpreter with the sample documents. *)
Definition runtime : Builtins := builtins docs.

End Reference.

(** ** lambda-functions/knowledge-base-lambda/index.py: knowledge-base management *)

Module KnowledgeBaseLambda.

(** A Python value as the handler holds it before [json.dumps]: data
    of JSON shape, or a list or dict that may hold, at any depth, a value
    [json.dumps] refuses, such as the [datetime] of an [updatedAt] field
    in a reply of the service. *)
Inductive pyobj : Type :=
| PJson (v : json)
| PDatetime (printed : string)
| PList (items : list pyobj)
| PDict (fields : list (string * pyobj)).

(** The JSON value [json.dumps] serialises, when there is one. *)
Fixpoint to_json (v : pyobj) : option json :=
  match v with
  | PJson j => Some j
  | PDatetime _ => None
  | PList items => JList <$> mapM to_json items
  | PDict fields =>
      JDict <$> mapM (fun kx => j ← to_json kx.2; Some (kx.1, j)) fields
  end.

(** First binding of a key in a dict of such values. *)
Fixpoint assoc (k : string) (fields : list (string * pyobj)) : option pyobj :=
  match fields with
  | [] => None
  | (k', v) :: rest => if String.eqb k k' then Some v else assoc k rest
  end.

(** [v[k]] with a string key. *)
Definition getitem_key (v : pyobj) (k : string) : outcome pyobj :=
  match v with
  | PJson j => x ← Py.getitem_key j k; Ret (PJson x)
  | PDict fields =>
      match assoc k fields with
      | Some x => Ret x
      | None => Raise (KeyError (JStr k))
      end
  | _ => Raise TypeError
  end.

(** The [bedrock] client and the configuration of this function. Each
    call yields its reply or the exception it raised. [create_call]
    receives the keyword arguments as one object; of its reply only the
    identifier is read. The reply of [list_call] is passed on whole, so it
    is a [pyobj]. *)
Record Bedrock : Type := {
  kb_environ : gmap string string;
  create_call : json -> outcome json;
  list_call : outcome pyobj
}.

(** [v == s] for a string literal [s]. *)
Definition eq_str (v : json) (s : string) : bool :=
  match v with
  | JStr t => String.eqb t s
  | _ => false
  end.

(** The keyword arguments of [bedrock.create_knowledge_base]. *)
Definition create_arguments (name description : json) (role_arn : string) : json :=
  JDict [("name", name);
         ("description", description);
         ("knowledgeBaseConfiguration",
          JDict [("type", JStr "VECTOR");
                 ("vectorKnowledgeBaseConfiguration",
                  JDict [("embeddingModelArn",
                          JStr "arn:aws:bedrock:us-east-1::foundation-model/amazon.titan-embed-text-v1")])]);
         ("roleArn", JStr role_arn)].

Section WithBuiltins.
Context {py : Builtins}.

(** [json.dumps(v)]: a value that holds a [datetime] raises
    [TypeError]. *)
Definition dumps (v : pyobj) : outcome string :=
  match to_json v with
  | Some j => Ret (json_dumps j)
  | None => Raise TypeError
  end.

(** The [try] block of [create_knowledge_base]. *)
Definition create_body (b : Bedrock) (data : json) : outcome json :=
  name ← Py.get data "name" (JStr "Spec3ChatbotKB");
  description ← Py.get data "description" (JStr "Knowledge base for Spec3 Chatbot");
  response ← create_call b
    (create_arguments name description
       (default "" (kb_environ b !! "BEDROCK_ROLE_ARN")));
  kb ← Py.getitem_key response "knowledgeBase";
  kb_id ← Py.getitem_key kb "knowledgeBaseId";
  Ret (JDict [("knowledge_base_id", kb_id)]).

(** [create_knowledge_base] *)
Definition create_knowledge_base (b : Bedrock) (data : json) : json :=
  try_except (create_body b data)
    (fun e => JDict [("error", JStr ("Failed to create knowledge base: " +:+ exn_str e))]).

(** [add_document]: the [try] block only builds a dict. *)
Definition add_document (data : json) : json :=
  try_except
    (Ret (JDict [("message", JStr "Document added successfully")]))
    (fun e => JDict [("error", JStr ("Failed to add document: " +:+ exn_str e))]).

(** [list_knowledge_bases] *)
Definition list_knowledge_bases (b : Bedrock) : pyobj :=
  try_except
    (response ← list_call b;
     summaries ← getitem_key response "knowledgeBaseSummaries";
     Ret (PDict [("knowledge_bases", summaries)]))
    (fun e =>
       PJson (JDict [("error", JStr ("Failed to list knowledge bases: " +:+ exn_str e))])).

(** The [if]/[elif] chain of [handler] on the operation name. *)
Definition dispatch (b : Bedrock) (body operation : json) : pyobj :=
  if eq_str operation "create_knowledge_base" then PJson (create_knowledge_base b body)
  else if eq_str operation "add_document" then PJson (add_document body)
  else if eq_str operation "list_knowledge_bases" then list_knowledge_bases b
  else PJson (JDict [("error", JStr "Invalid operation")]).

(** The [try] block of [handler]. The response dicts carry the same
    headers as those of the chatbot handler. *)
Definition handler_body (b : Bedrock) (event : gmap string json)
  : outcome ChatbotLambda.LambdaResponse :=
  body ← py_json_loads (default (JStr "{}") (event !! "body"));
  operation ← Py.get body "operation" (JStr "");
  let response := dispatch b body operation in
  dumped ← dumps response;
  Ret {| ChatbotLambda.statusCode := 200;
         ChatbotLambda.headers := ChatbotLambda.ok_headers;
         ChatbotLambda.body := dumped |}.

(** [handler] *)
Definition handler (b : Bedrock) (event : gmap string json)
  : ChatbotLambda.LambdaResponse :=
  try_except (handler_body b event)
    (fun e => {| ChatbotLambda.statusCode := 500;
                 ChatbotLambda.headers := ChatbotLambda.error_headers;
                 ChatbotLambda.body := json_dumps (JDict [("error", JStr (exn_str e))]) |}).

End WithBuiltins.

End KnowledgeBaseLambda.

(** ** More sample requests for the reference interpreter *)

Module Samples.

(** [{"operation": "<name>"}] as text and as parsed. *)
Definition operation_text (name : string) : string :=
  "{" +:+ Reference.dq +:+ "operation" +:+ Reference.dq +:+ ": "
  +:+ Reference.dq +:+ name +:+ Reference.dq +:+ "}".

Definition operation_json (name : string) : json :=
  JDict [("operation", JStr name)].

(** A reply whose first content segment has no [text], beside a
    [completion]. *)
Definition textless_reply : string :=
  "{" +:+ Reference.dq +:+ "content" +:+ Reference.dq +:+ ": [{}], "
  +:+ Reference.dq +:+ "completion" +:+ Reference.dq +:+ ": "
  +:+ Reference.dq +:+ "From completion." +:+ Reference.dq +:+ "}".

Definition textless_json : json :=
  JDict [("content", JList [JDict []]); ("completion", JStr "From completion.")].

(** A reply that holds only a [completion]. *)
Definition completion_reply : string :=
  "{" +:+ Reference.dq +:+ "completion" +:+ Reference.dq +:+ ": "
  +:+ Reference.dq +:+ "From completion." +:+ Reference.dq +:+ "}".

Definition completion_json : json := JDict [("completion", JStr "From completion.")].

(** A reply whose text is a number. *)
Definition numeric_reply : string :=
  "{" +:+ Reference.dq +:+ "content" +:+ Reference.dq +:+ ": [{"
  +:+ Reference.dq +:+ "text" +:+ Reference.dq +:+ ": 42}]}".

Definition numeric_json : json :=
  JDict [("content", JList [JDict [("text", JInt 42)]])].

(** A reply with two text segments. *)
Definition two_segments_reply : string :=
  "{" +:+ Reference.dq +:+ "content" +:+ Reference.dq +:+ ": [{"
  +:+ Reference.dq +:+ "text" +:+ Reference.dq +:+ ": "
  +:+ Reference.dq +:+ "First." +:+ Reference.dq +:+ "}, {"
  +:+ Reference.dq +:+ "text" +:+ Reference.dq +:+ ": "
  +:+ Reference.dq +:+ "Second." +:+ Reference.dq +:+ "}]}".

Definition two_segments_json : json :=
  JDict [("content", JList [JDict [("text", JStr "First.")];
                            JDict [("text", JStr "Second.")]])].

(** The documents this interpreter's [json.loads] knows. *)
Definition docs : list (string * json) :=
  [(operation_text "add_document", operation_json "add_document");
   (operation_text "create_knowledge_base", operation_json "create_knowledge_base");
   (operation_text "list_knowledge_bases", operation_json "list_knowledge_bases");
   (operation_text "delete_knowledge_base", operation_json "delete_knowledge_base");
   ("[]", JList []);
   (textless_reply, textless_json);
   (completion_reply, completion_json);
   (numeric_reply, numeric_json);
   (two_segments_reply, two_segments_json);
   (Reference.reply_text "Slicks are not allowed.",
    Reference.reply_json "Slicks are not allowed.");
   (Reference.session_request,
    JDict [("message", JStr "hello"); ("session_id", JStr "abc-123")])].

(** The reference interpreter with these documents. *)
Definition runtime : Builtins := Reference.builtins docs.

(** A world with a knowledge base that answers every query with
    [reply]. *)
Definition kb_world (env : list (string * string)) (kb_reply model_reply : outcome string)
  : World := {|
  environ := list_to_map env;
  invoke_model := fun _ _ => model_reply;
  retrieve_and_generate := fun _ _ =>
    match kb_reply with
    | Ret text => Ret (JDict [("output", JDict [("text", JStr text)])])
    | Raise e => Raise e
    end;
  now_isoformat := "2024-05-01T12:00:00.000000"
|}.

(** A reply to [list_knowledge_bases] as the service gives it, the
    time of the last update being a [datetime]. *)
Definition dated_summaries : KnowledgeBaseLambda.pyobj :=
  KnowledgeBaseLambda.PDict
    [("knowledgeBaseSummaries",
      KnowledgeBaseLambda.PList
        [KnowledgeBaseLambda.PDict
           [("knowledgeBaseId", KnowledgeBaseLambda.PJson (JStr "KB12345"));
            ("name", KnowledgeBaseLambda.PJson (JStr "Spec3ChatbotKB"));
            ("updatedAt",
             KnowledgeBaseLambda.PDatetime "2024-05-01 12:00:00+00:00")]])].

(** A Bedrock client whose calls answer with the given outcomes. *)
Definition bedrock (env : list (string * string)) (created : outcome json)
    (listed : outcome KnowledgeBaseLambda.pyobj)
  : KnowledgeBaseLambda.Bedrock := {|
  KnowledgeBaseLambda.kb_environ := list_to_map env;
  KnowledgeBaseLambda.create_call := fun _ => created;
  KnowledgeBaseLambda.list_call := listed
|}.

End Samples.


(** * Properties *)

(** ** The model on small inputs *)

Example contains_card : PyStr.contains "car" "a card" = true.
Proof. reflexivity. Qed.

Example split_arn :
  PyStr.split "/" "arn:aws:bedrock:us-east-1::foundation-model/anthropic.claude-v2"
  = ["arn:aws:bedrock:us-east-1::foundation-model"; "anthropic.claude-v2"].
Proof. reflexivity. Qed.

Example strip_example :
  PyStr.strip (PyStr.nl +:+ PyStr.indent12 +:+ "a b" +:+ PyStr.nl +:+ PyStr.indent12) = "a b".
Proof. reflexivity. Qed.

Example dumps_roundtrip :
  Reference.dumps (Reference.reply_json "ok") = Reference.reply_text "ok".
Proof. reflexivity. Qed.

Example repr_example :
  Reference.repr (JDict [("a", JInt 1); ("b", JList [JNull; JStr "x"])])
  = "{'a': 1, 'b': [None, 'x']}".
Proof. vm_compute. reflexivity. Qed.

(** ** Strings *)

Section StringFacts.

Lemma app_cons (c : ascii) (s t : string) : String c s +:+ t = String c (s +:+ t).
Proof. reflexivity. Qed.

Lemma app_empty_l (t : string) : "" +:+ t = t.
Proof. reflexivity. Qed.

Lemma app_empty_r (s : string) : s +:+ "" = s.
Proof. induction s as [|c s IH]; [reflexivity|]. rewrite app_cons, IH. reflexivity. Qed.

Lemma app_assoc (s t u : string) : (s +:+ t) +:+ u = s +:+ t +:+ u.
Proof.
  induction s as [|c s IH]; [reflexivity|].
  rewrite !app_cons, IH. reflexivity.
Qed.

Lemma startswith_spec (p s : string) :
  PyStr.startswith p s = true <-> exists post, s = p +:+ post.
Proof.
  revert s. induction p as [|a p IH]; intros s; simpl.
  - split; [intros _; exists s; reflexivity | reflexivity].
  - destruct s as [|b s].
    + split; [discriminate | intros [post Hpost]; discriminate].
    + rewrite andb_true_iff, Ascii.eqb_eq, IH. split.
      * intros [-> [post ->]]. exists post. reflexivity.
      * intros [post Hpost]. rewrite app_cons in Hpost.
        injection Hpost as -> ->. split; [reflexivity | exists post; reflexivity].
Qed.

Lemma contains_spec (w s : string) :
  PyStr.contains w s = true <-> PyStr.substring_of w s.
Proof.
  unfold PyStr.substring_of. induction s as [|c s IH].
  - simpl. rewrite orb_false_r, startswith_spec. split.
    + intros [post Hpost]. exists "", post. exact Hpost.
    + intros [[|a pre] [post Hpost]].
      * exists post. exact Hpost.
      * rewrite app_cons in Hpost. discriminate.
  - simpl. rewrite orb_true_iff, startswith_spec, IH. split.
    + intros [[post Hpost] | (pre & post & Hs)].
      * exists "", post. exact Hpost.
      * exists (String c pre), post. rewrite app_cons, Hs. reflexivity.
    + intros [[|a pre] [post Hpost]].
      * left. exists post. exact Hpost.
      * right. rewrite app_cons in Hpost. injection Hpost as -> ->.
        exists pre, post. reflexivity.
Qed.

Lemma any_in_spec (words : list string) (text : string) :
  PyStr.any_in words text = true <-> PyStr.mentions words text.
Proof.
  unfold PyStr.any_in, PyStr.mentions. rewrite existsb_exists.
  split; intros (word & Hin & Hw); exists word; split; try assumption;
    apply contains_spec; assumption.
Qed.

Lemma any_in_false (words : list string) (text : string) :
  PyStr.any_in words text = false <-> ~ PyStr.mentions words text.
Proof.
  rewrite <- any_in_spec. destruct (PyStr.any_in words text); split; intros; congruence.
Qed.

End StringFacts.

(** ** The query classifier *)

Section Classifier.
Context {py : Builtins}.

(** The classifier unfolded on the three tests it makes, in order. *)
Lemma classify_cases (message : string) :
  Main._classify_query message =
  if PyStr.any_in Main.hybrid_keywords (str_lower message) then "hybrid"
  else if PyStr.any_in Main.rules_keywords (str_lower message) then "rules"
  else if PyStr.any_in Main.dynamic_keywords (str_lower message) then "parts_or_schedule"
  else "general".
Proof. reflexivity. Qed.

(** C1. A message whose lower-cased text contains a hybrid keyword is
    classified [hybrid], whatever else it contains; otherwise one that
    contains a rules keyword is classified [rules]; otherwise one that
    contains a dynamic keyword is classified [parts_or_schedule];
    otherwise the message is [general]. The first list that matches, in
    that order, decides. *)
Theorem classify_precedence (message : string) :
  let text := str_lower message in
  (PyStr.mentions Main.hybrid_keywords text ->
   Main._classify_query message = "hybrid") /\
  (~ PyStr.mentions Main.hybrid_keywords text ->
   PyStr.mentions Main.rules_keywords text ->
   Main._classify_query message = "rules") /\
  (~ PyStr.mentions Main.hybrid_keywords text ->
   ~ PyStr.mentions Main.rules_keywords text ->
   PyStr.mentions Main.dynamic_keywords text ->
   Main._classify_query message = "parts_or_schedule") /\
  (~ PyStr.mentions Main.hybrid_keywords text ->
   ~ PyStr.mentions Main.rules_keywords text ->
   ~ PyStr.mentions Main.dynamic_keywords text ->
   Main._classify_query message = "general").
Proof.
  intros text. subst text. rewrite classify_cases.
  repeat split; intros;
    repeat match goal with
    | H : PyStr.mentions _ _ |- _ => apply any_in_spec in H; rewrite H
    | H : ~ PyStr.mentions _ _ |- _ => apply any_in_false in H; rewrite H
    end; reflexivity.
Qed.

(** C8. A message whose lower-cased text contains no keyword of the
    hybrid, rules and dynamic lists is classified [general]. *)
Theorem classify_no_keyword (message : string) :
  ~ PyStr.mentions Main.hybrid_keywords (str_lower message) ->
  ~ PyStr.mentions Main.rules_keywords (str_lower message) ->
  ~ PyStr.mentions Main.dynamic_keywords (str_lower message) ->
  Main._classify_query message = "general".
Proof.
  intros Hh Hr Hd. rewrite classify_cases.
  apply any_in_false in Hh, Hr, Hd. rewrite Hh, Hr, Hd. reflexivity.
Qed.

(** C9. Matching is by substring of the lower-cased text, not by whole
    word: a keyword standing between any two pieces of text, letters
    included, classifies the message by the keyword's list, unless a list
    of higher precedence matches too. So a text that lower-cases to
    [card] is hybrid through [car], and one that lower-cases to
    [apartment] is dynamic through [part]. *)
Theorem classify_by_substring (message pre word post : string) :
  str_lower message = pre +:+ word +:+ post ->
  (In word Main.hybrid_keywords -> Main._classify_query message = "hybrid") /\
  (In word Main.rules_keywords ->
   ~ PyStr.mentions Main.hybrid_keywords (str_lower message) ->
   Main._classify_query message = "rules") /\
  (In word Main.dynamic_keywords ->
   ~ PyStr.mentions Main.hybrid_keywords (str_lower message) ->
   ~ PyStr.mentions Main.rules_keywords (str_lower message) ->
   Main._classify_query message = "parts_or_schedule") /\
  (str_lower message = "card" -> Main._classify_query message = "hybrid") /\
  (str_lower message = "apartment" ->
   Main._classify_query message = "parts_or_schedule").
Proof.
  intros Hlow.
  assert (Hm : forall words, In word words ->
                PyStr.any_in words (str_lower message) = true).
  { intros words Hin. apply any_in_spec. exists word.
    split; [exact Hin|]. exists pre, post. exact Hlow. }
  rewrite classify_cases. repeat split.
  - intros Hin. rewrite (Hm _ Hin). reflexivity.
  - intros Hin Hnh. apply any_in_false in Hnh.
    rewrite Hnh, (Hm _ Hin). reflexivity.
  - intros Hin Hnh Hnr. apply any_in_false in Hnh, Hnr.
    rewrite Hnh, Hnr, (Hm _ Hin). reflexivity.
  - intros Hc. rewrite Hc. reflexivity.
  - intros Hc. rewrite Hc. reflexivity.
Qed.

End Classifier.

(** The classifier run on the four sample questions of the design
    document, and on one that mixes keywords of all three lists. *)
Lemma classify_precedence_witness :
  Main._classify_query (py:=Reference.runtime) "Is a spec car part legal?" = "hybrid" /\
  Main._classify_query (py:=Reference.runtime) "What is the rule for legal tires?" = "rules" /\
  Main._classify_query (py:=Reference.runtime) "What is the price of a part?"
  = "parts_or_schedule" /\
  Main._classify_query (py:=Reference.runtime) "Hello" = "general".
Proof.
  set (py := Reference.runtime).
  pose proof (classify_precedence (py:=py) "Is a spec car part legal?") as (H1 & _).
  pose proof (classify_precedence (py:=py) "What is the rule for legal tires?")
    as (_ & H2 & _).
  pose proof (classify_precedence (py:=py) "What is the price of a part?")
    as (_ & _ & H3 & _).
  pose proof (classify_precedence (py:=py) "Hello") as (_ & _ & _ & H4).
  split; [|split; [|split]].
  - apply H1. exists "car". split; [simpl; tauto|].
    exists "is a spec ", " part legal?". reflexivity.
  - apply H2; [apply any_in_false; reflexivity|].
    exists "legal". split; [simpl; tauto|].
    exists "what is the rule for ", " tires?". reflexivity.
  - apply H3; [apply any_in_false; reflexivity ..|].
    exists "price". split; [simpl; tauto|].
    exists "what is the ", " of a part?". reflexivity.
  - apply H4; apply any_in_false; reflexivity.
Defined.

Lemma classify_no_keyword_witness :
  Main._classify_query (py:=Reference.runtime) "Hello" = "general".
Proof.
  apply (classify_no_keyword (py:=Reference.runtime) "Hello");
    apply any_in_false; reflexivity.
Defined.

Lemma classify_by_substring_witness :
  Main._classify_query (py:=Reference.runtime) "My credit CARD" = "hybrid" /\
  Main._classify_query (py:=Reference.runtime) "Apartment" = "parts_or_schedule".
Proof.
  set (py := Reference.runtime).
  destruct (classify_by_substring (py:=py) "My credit CARD" "my credit " "car" "d"
              eq_refl) as (H1 & _).
  destruct (classify_by_substring (py:=py) "Apartment" "a" "part" "ment"
              eq_refl) as (_ & _ & H3 & _).
  split.
  - apply H1. simpl. tauto.
  - apply H3; [simpl; tauto | apply any_in_false; reflexivity ..].
Defined.

(** ** Stripping the synthesis template *)

Section StripFacts.

Lemma rstrip_app (s t : string) :
  PyStr.rstrip t <> "" -> PyStr.rstrip (s +:+ t) = s +:+ PyStr.rstrip t.
Proof.
  intros Ht. induction s as [|c s IH]; [reflexivity|].
  rewrite !app_cons. simpl. rewrite IH.
  destruct (s +:+ PyStr.rstrip t) as [|d r] eqn:Hr; [|reflexivity].
  destruct s; [rewrite app_empty_l in Hr; contradiction | discriminate].
Qed.

Lemma rstrip_trailing (s : string) (c : ascii) (ws : string) :
  PyStr.isspace c = false -> PyStr.rstrip ws = "" ->
  PyStr.rstrip (s +:+ String c ws) = s +:+ String c "".
Proof.
  intros Hc Hws.
  assert (Hlast : PyStr.rstrip (String c ws) = String c "").
  { simpl. rewrite Hws, Hc. reflexivity. }
  rewrite rstrip_app; rewrite Hlast; [reflexivity | discriminate].
Qed.

Lemma lstrip_template (rest : string) :
  PyStr.lstrip (PyStr.nl +:+ PyStr.indent12 +:+ "Based on the rules: " +:+ rest)
  = "Based on the rules: " +:+ rest.
Proof. reflexivity. Qed.

End StripFacts.

(** ** The source queriers and the synthesizer *)

Section Queriers.
Context {py : Builtins}.

Lemma lookup_answer (a s : json) :
  ({[ "answer" := a; "sources" := s ]} : gmap string json) !! "answer" = Some a.
Proof. apply lookup_insert_eq. Qed.

Lemma lookup_sources (a s : json) :
  ({[ "answer" := a; "sources" := s ]} : gmap string json) !! "sources" = Some s.
Proof. rewrite lookup_insert_ne by discriminate. apply lookup_singleton_eq. Qed.

Lemma query_mcp_server_eq (message : string) :
  Main._query_mcp_server message =
  {[ "answer" := JStr (Main.mcp_answer message);
     "sources" := JList [JStr "Google Sheets via MCP"] ]}.
Proof. reflexivity. Qed.

(** The rules querier returns one of two dicts, by the outcome of its
    [try] block. *)
Lemma query_knowledge_base_cases (w : World) (message : string) :
  Main._query_knowledge_base w message =
  match Main.invoke_for_text w 1000
          ("Based on the Spec3 racing rulebook and documentation, please answer: "
           +:+ message) with
  | Ret text => {[ "answer" := text; "sources" := JList [JStr "Spec3 Rulebook"] ]}
  | Raise e => {[ "answer" := JStr ("Error querying knowledge base: " +:+ exn_str e);
                  "sources" := JList [] ]}
  end.
Proof.
  unfold Main._query_knowledge_base.
  destruct (Main.invoke_for_text w 1000 _); reflexivity.
Qed.

Lemma strip_combined (ra : json) (message : string) :
  PyStr.strip (Main.combined_template ra (JStr (Main.mcp_answer message)))
  = "Based on the rules: " +:+ py_str ra
    +:+ PyStr.nl +:+ PyStr.indent12 +:+ PyStr.nl +:+ PyStr.indent12
    +:+ "Current data: " +:+ Main.mcp_answer message.
Proof.
  unfold PyStr.strip, Main.combined_template. rewrite lstrip_template.
  unfold Main.mcp_answer. cbn [py_str].
  set (tail := PyStr.nl +:+ PyStr.indent12).
  rewrite <- !app_assoc.
  rewrite (app_assoc _ " (placeholder - implement MCP client)" tail).
  change (" (placeholder - implement MCP client)" +:+ tail)
    with (" (placeholder - implement MCP client" +:+ String ")" tail).
  rewrite <- app_assoc.
  rewrite rstrip_trailing by reflexivity.
  rewrite (app_assoc _ " (placeholder - implement MCP client" (String ")" "")).
  reflexivity.
Qed.

End Queriers.

Section Synthesis.
Context {py : Builtins}.

Lemma substring_of_app_l (pre w s : string) :
  PyStr.substring_of w s -> PyStr.substring_of w (pre +:+ s).
Proof.
  intros (a & b & ->). exists (pre +:+ a), b. rewrite app_assoc. reflexivity.
Qed.

Lemma substring_of_app_r (w s post : string) :
  PyStr.substring_of w s -> PyStr.substring_of w (s +:+ post).
Proof.
  intros (a & b & ->). exists a, (b +:+ post). rewrite !app_assoc. reflexivity.
Qed.

Lemma substring_of_refl (w : string) : PyStr.substring_of w w.
Proof. exists "", "". rewrite app_empty_r. reflexivity. Qed.

(** What [_query_both_sources] returns, given the dict of the rules
    querier. *)
Lemma query_both_sources_eq (w : World) (message : string)
    (rules_answer : json) (rules_sources : list json) :
  Main._query_knowledge_base w message
  = {[ "answer" := rules_answer; "sources" := JList rules_sources ]} ->
  Main._query_both_sources w message
  = {[ "answer" :=
         JStr ("Based on the rules: " +:+ py_str rules_answer
               +:+ PyStr.nl +:+ PyStr.indent12 +:+ PyStr.nl +:+ PyStr.indent12
               +:+ "Current data: " +:+ Main.mcp_answer message);
       "sources" := JList (rules_sources ++ [JStr "Google Sheets via MCP"]) ]}.
Proof.
  intros Hkb. unfold Main._query_both_sources.
  rewrite Hkb, query_mcp_server_eq.
  unfold Py.dict_getitem. rewrite !lookup_answer, !lookup_sources.
  cbn [mbind outcome_bind Py.add try_except].
  rewrite strip_combined. reflexivity.
Qed.

(** C2. The synthesized answer carries both literal headers, the rules
    querier's answer and the dynamic querier's answer, in that order, and
    its sources are the rules querier's followed by the dynamic
    querier's. When the model call of the rules querier fails, the answer
    it contributes is its error text. *)
Theorem hybrid_synthesis (w : World) (message : string) :
  exists (rules_answer : json) (data_answer : string)
         (rules_sources data_sources : list json) (answer : string),
    Main._query_knowledge_base w message
    = {[ "answer" := rules_answer; "sources" := JList rules_sources ]} /\
    Main._query_mcp_server message
    = {[ "answer" := JStr data_answer; "sources" := JList data_sources ]} /\
    Main._query_both_sources w message
    = {[ "answer" := JStr answer;
         "sources" := JList (rules_sources ++ data_sources) ]} /\
    answer = "Based on the rules: " +:+ py_str rules_answer
             +:+ PyStr.nl +:+ PyStr.indent12 +:+ PyStr.nl +:+ PyStr.indent12
             +:+ "Current data: " +:+ data_answer /\
    PyStr.substring_of "Based on the rules:" answer /\
    PyStr.substring_of "Current data:" answer /\
    PyStr.substring_of (py_str rules_answer) answer /\
    PyStr.substring_of data_answer answer /\
    match Main.invoke_for_text w 1000
            ("Based on the Spec3 racing rulebook and documentation, please answer: "
             +:+ message) with
    | Ret text => rules_answer = text
    | Raise e => rules_answer = JStr ("Error querying knowledge base: " +:+ exn_str e)
    end.
Proof.
  pose proof (query_knowledge_base_cases w message) as Hkb.
  set (outcome_of_call := Main.invoke_for_text w 1000 _) in *.
  assert (Hshape : exists ra rs,
             Main._query_knowledge_base w message
             = {[ "answer" := ra; "sources" := JList rs ]} /\
             match outcome_of_call with
             | Ret text => ra = text
             | Raise e => ra = JStr ("Error querying knowledge base: " +:+ exn_str e)
             end).
  { destruct outcome_of_call as [text|e]; eauto. }
  destruct Hshape as (ra & rs & Hra & Hcall).
  exists ra, (Main.mcp_answer message), rs, [JStr "Google Sheets via MCP"].
  eexists. split; [exact Hra|]. split; [apply query_mcp_server_eq|].
  split; [apply (query_both_sources_eq _ _ _ _ Hra)|].
  split; [reflexivity|]. repeat split.
  - exists "", (" " +:+ py_str ra +:+ PyStr.nl +:+ PyStr.indent12 +:+ PyStr.nl
                +:+ PyStr.indent12 +:+ "Current data: " +:+ Main.mcp_answer message).
    reflexivity.
  - do 6 apply substring_of_app_l.
    exists "", (" " +:+ Main.mcp_answer message). reflexivity.
  - apply substring_of_app_l, substring_of_app_r, substring_of_refl.
  - do 7 apply substring_of_app_l. apply substring_of_refl.
  - exact Hcall.
Qed.

End Synthesis.

(** ** The orchestrator *)

Section Orchestrator.
Context {py : Builtins}.

Lemma package_response_text (w : World) (pr : gmap string json)
    (text : string) (srcs : list json) :
  default (JStr "Sorry, I could not find an answer.") (pr !! "answer") = JStr text ->
  default (JList []) (pr !! "sources") = JList srcs ->
  Main.package_response w pr
  = Ret {| Main.response := text; Main.sources := srcs;
           Main.timestamp := Some (now_isoformat w) |}.
Proof.
  intros Ha Hs. unfold Main.package_response, Main.ChatResponse_new.
  rewrite Ha, Hs. reflexivity.
Qed.

Lemma package_response_timestamp (w : World) (pr : gmap string json)
    (r : Main.ChatResponse) :
  Main.package_response w pr = Ret r -> Main.timestamp r = Some (now_isoformat w).
Proof.
  unfold Main.package_response, Main.ChatResponse_new.
  destruct (validate_str _) as [r'|]; [|discriminate].
  destruct (validate_list _) as [s'|]; [|discriminate].
  cbn. intros [= <-]. reflexivity.
Qed.

Lemma route_rules (w : World) (message : string) :
  Main._classify_query message = "rules" ->
  Main.route w message = Main._query_knowledge_base w message.
Proof. intros Hc. unfold Main.route. rewrite Hc. reflexivity. Qed.

Lemma route_hybrid (w : World) (message : string) :
  Main._classify_query message = "hybrid" ->
  Main.route w message = Main._query_both_sources w message.
Proof. intros Hc. unfold Main.route. rewrite Hc. reflexivity. Qed.

(** C3, as the code has it. When the [try] block of the rules querier
    raises, whether in the remote call, in decoding its reply or in
    reading the text out of it, the querier returns the error text, which
    is not empty, with no sources. For a message classified [rules] the
    [ChatResponse] carries that text and the empty list of sources; for a
    message classified [hybrid] the response is not empty either and the
    sources are those of the dynamic querier. *)
Theorem rules_querier_failure (w : World) (message session_id : string) (e : exn) :
  Main.invoke_for_text w 1000
    ("Based on the Spec3 racing rulebook and documentation, please answer: "
     +:+ message) = Raise e ->
  Main._query_knowledge_base w message
  = {[ "answer" := JStr ("Error querying knowledge base: " +:+ exn_str e);
       "sources" := JList [] ]} /\
  "Error querying knowledge base: " +:+ exn_str e <> "" /\
  (Main._classify_query message = "rules" ->
   Main.process_message w message session_id
   = Ret {| Main.response := "Error querying knowledge base: " +:+ exn_str e;
            Main.sources := [];
            Main.timestamp := Some (now_isoformat w) |}) /\
  (Main._classify_query message = "hybrid" ->
   exists r, Main.process_message w message session_id = Ret r /\
             Main.response r <> "" /\
             Main.sources r = [JStr "Google Sheets via MCP"]).
Proof.
  intros Hfail.
  assert (Hkb : Main._query_knowledge_base w message
                = {[ "answer" := JStr ("Error querying knowledge base: " +:+ exn_str e);
                     "sources" := JList [] ]}).
  { rewrite query_knowledge_base_cases, Hfail. reflexivity. }
  split; [exact Hkb|]. split; [discriminate|]. split.
  - intros Hc. unfold Main.process_message. rewrite (route_rules _ _ Hc), Hkb.
    apply package_response_text.
    + rewrite lookup_answer. reflexivity.
    + rewrite lookup_sources. reflexivity.
  - intros Hc. unfold Main.process_message.
    rewrite (route_hybrid _ _ Hc), (query_both_sources_eq _ _ _ _ Hkb).
    eexists. split.
    + apply package_response_text.
      * rewrite lookup_answer. reflexivity.
      * rewrite lookup_sources. reflexivity.
    + split; [discriminate | reflexivity].
Qed.

(** Every provider result the orchestrator selects has both keys, so
    the defaults of [package_response] are never used on them. *)
Lemma route_has_keys (w : World) (message : string) :
  is_Some (Main.route w message !! "answer") /\
  is_Some (Main.route w message !! "sources").
Proof.
  assert (Hkb : forall m, is_Some (Main._query_knowledge_base w m !! "answer") /\
                          is_Some (Main._query_knowledge_base w m !! "sources")).
  { intros m. rewrite query_knowledge_base_cases.
    destruct (Main.invoke_for_text w 1000 _);
      rewrite lookup_answer, lookup_sources; eauto. }
  unfold Main.route.
  destruct (String.eqb _ "rules"); [apply Hkb|].
  destruct (String.eqb _ "parts_or_schedule").
  { rewrite query_mcp_server_eq, lookup_answer, lookup_sources. eauto. }
  destruct (String.eqb _ "hybrid").
  - pose proof (query_knowledge_base_cases w message) as Hcases.
    destruct (Main.invoke_for_text w 1000 _);
      rewrite (query_both_sources_eq _ _ _ _ Hcases), lookup_answer, lookup_sources;
      eauto.
  - unfold Main._handle_general_query.
    destruct (Main.invoke_for_text w 500 _); cbn [mbind outcome_bind try_except];
      rewrite lookup_answer, lookup_sources; eauto.
Qed.

(** C4, as the code has it. The response field is the default text when
    the provider result has no [answer] key, and the provider's answer
    when the key holds text, the empty text included; every
    [ChatResponse] produced carries the time of its construction. Here
    the [sources] key is missing or holds a list. *)
Theorem package_response_answer (w : World) (provider_result : gmap string json)
    (srcs : list json) :
  default (JList []) (provider_result !! "sources") = JList srcs ->
  (provider_result !! "answer" = None ->
   Main.package_response w provider_result
   = Ret {| Main.response := "Sorry, I could not find an answer.";
            Main.sources := srcs;
            Main.timestamp := Some (now_isoformat w) |}) /\
  (forall text, provider_result !! "answer" = Some (JStr text) ->
   Main.package_response w provider_result
   = Ret {| Main.response := text;
            Main.sources := srcs;
            Main.timestamp := Some (now_isoformat w) |}) /\
  (forall r, Main.package_response w provider_result = Ret r ->
             Main.timestamp r = Some (now_isoformat w)) /\
  (forall message session_id,
     Main.process_message w message session_id
     = Main.package_response w (Main.route w message)).
Proof.
  intros Hs. repeat split.
  - intros Ha. apply package_response_text; [rewrite Ha; reflexivity | exact Hs].
  - intros text Ha. apply package_response_text; [rewrite Ha; reflexivity | exact Hs].
  - intros r. apply package_response_timestamp.
Qed.

End Orchestrator.

(** A hybrid question while the model endpoint is down: the rules
    querier runs and fails, and the response lists a source. *)
Lemma rules_failure_hybrid_sources :
  Main._classify_query (py:=Reference.runtime) "Help me build a car setup" = "hybrid" /\
  Main._query_knowledge_base (py:=Reference.runtime)
    (Reference.world [] (Raise (OtherError "Read timed out")))
    "Help me build a car setup"
  = {[ "answer" := JStr "Error querying knowledge base: Read timed out";
       "sources" := JList [] ]} /\
  exists r,
    Main.process_message (py:=Reference.runtime)
      (Reference.world [] (Raise (OtherError "Read timed out")))
      "Help me build a car setup" "default" = Ret r /\
    Main.sources r = [JStr "Google Sheets via MCP"] /\
    Main.sources r <> [].
Proof.
  split; [reflexivity|]. split; [reflexivity|].
  eexists. split; [vm_compute; reflexivity|]. split; [reflexivity | discriminate].
Qed.

Lemma rules_querier_failure_witness :
  Main.process_message (py:=Reference.runtime)
    (Reference.world [] (Raise (OtherError "Read timed out")))
    "What is the rule for legal tires?" "default"
  = Ret {| Main.response := "Error querying knowledge base: Read timed out";
           Main.sources := [];
           Main.timestamp := Some "2024-05-01T12:00:00.000000" |}.
Proof.
  destruct (rules_querier_failure (py:=Reference.runtime)
              (Reference.world [] (Raise (OtherError "Read timed out")))
              "What is the rule for legal tires?" "default"
              (OtherError "Read timed out") eq_refl) as (_ & _ & Hrules & _).
  apply Hrules. reflexivity.
Defined.

(** A rules question answered by the model with the empty text: the
    response is the empty text, not the default one. *)
Lemma empty_answer_not_defaulted :
  Main.package_response (py:=Reference.runtime)
    (Reference.world [] (Ret (Reference.reply_text "")))
    {[ "answer" := JStr ""; "sources" := JList [JStr "Spec3 Rulebook"] ]}
  = Ret {| Main.response := "";
           Main.sources := [JStr "Spec3 Rulebook"];
           Main.timestamp := Some "2024-05-01T12:00:00.000000" |} /\
  Main.process_message (py:=Reference.runtime)
    (Reference.world [] (Ret (Reference.reply_text "")))
    "What is the rule for legal tires?" "default"
  = Ret {| Main.response := "";
           Main.sources := [JStr "Spec3 Rulebook"];
           Main.timestamp := Some "2024-05-01T12:00:00.000000" |} /\
  "" <> "Sorry, I could not find an answer.".
Proof.
  split; [vm_compute; reflexivity|]. split; [vm_compute; reflexivity | discriminate].
Qed.

Lemma package_response_answer_witness :
  Main.package_response (py:=Reference.runtime)
    (Reference.world [] (Raise (OtherError "Read timed out")))
    {[ "sources" := JList [JStr "Spec3 Rulebook"] ]}
  = Ret {| Main.response := "Sorry, I could not find an answer.";
           Main.sources := [JStr "Spec3 Rulebook"];
           Main.timestamp := Some "2024-05-01T12:00:00.000000" |} /\
  Main.package_response (py:=Reference.runtime)
    (Reference.world [] (Raise (OtherError "Read timed out")))
    {[ "answer" := JStr "Slicks are not allowed." ]}
  = Ret {| Main.response := "Slicks are not allowed.";
           Main.sources := [];
           Main.timestamp := Some "2024-05-01T12:00:00.000000" |}.
Proof.
  split.
  - destruct (package_response_answer (py:=Reference.runtime)
             (Reference.world [] (Raise (OtherError "Read timed out")))
             {[ "sources" := JList [JStr "Spec3 Rulebook"] ]}
             [JStr "Spec3 Rulebook"]) as (Hmissing & _); [reflexivity|].
    apply Hmissing. reflexivity.
  - destruct (package_response_answer (py:=Reference.runtime)
             (Reference.world [] (Raise (OtherError "Read timed out")))
             {[ "answer" := JStr "Slicks are not allowed." ]}
             []) as (_ & Htext & _); [reflexivity|].
    apply Htext. reflexivity.
Defined.

(** ** The serverless handler *)

Section Lambda.
Context {py : Builtins}.

Lemma split_nonempty (sep : ascii) (s : string) : PyStr.split sep s <> [].
Proof.
  induction s as [|c s IH]; simpl; [discriminate|].
  destruct (Ascii.eqb c sep); [discriminate|].
  destruct (PyStr.split sep s); discriminate.
Qed.

(** Deriving the model identifier never raises. *)
Lemma model_id_of_arn_returns (model_arn : string) :
  exists model_id, ChatbotLambda.model_id_of_arn model_arn = Ret model_id.
Proof.
  unfold ChatbotLambda.model_id_of_arn.
  destruct (PyStr.startswith _ _); [|eauto].
  destruct (PyStr.contains _ _); [eauto|].
  unfold Py.getitem_last.
  destruct (last (PyStr.split "/" model_arn)) as [x|] eqn:Hlast; [eauto|].
  apply last_None in Hlast. destruct (split_nonempty _ _ Hlast).
Qed.

Lemma contains_false (w s : string) :
  PyStr.contains w s = false <-> ~ PyStr.substring_of w s.
Proof.
  rewrite <- contains_spec. destruct (PyStr.contains w s); split; intros; congruence.
Qed.

(** The [try] block of [fallback_response] once the model identifier,
    the raw reply and its decoding are known. *)
Lemma fallback_body_steps (w : World) (message : json) (model_id raw : string)
    (response_body : json) :
  ChatbotLambda.model_id_of_arn (default "" (environ w !! "MODEL_ARN")) = Ret model_id ->
  invoke_model w model_id (json_dumps (ChatbotLambda.request_body model_id message))
  = Ret raw ->
  json_loads raw = Ret response_body ->
  ChatbotLambda.fallback_body w message
  = ChatbotLambda.parse_response model_id response_body.
Proof.
  intros Hid Hcall Hload. unfold ChatbotLambda.fallback_body.
  rewrite Hid. cbn [mbind outcome_bind]. rewrite Hcall. cbn [mbind outcome_bind].
  rewrite Hload. reflexivity.
Qed.

Lemma parse_nova_no_field (fields : list (string * json)) :
  Py.assoc "content" fields = None ->
  Py.assoc "completion" fields = None ->
  ChatbotLambda.parse_nova (JDict fields) = Ret (JStr (py_str (JDict fields))).
Proof.
  intros Hc Hk. unfold ChatbotLambda.parse_nova, Py.contains.
  rewrite Hc, Hk. reflexivity.
Qed.

(** An empty [content] list is treated like a missing one. *)
Lemma parse_nova_empty_content (fields : list (string * json)) :
  Py.assoc "content" fields = Some (JList []) ->
  Py.assoc "completion" fields = None ->
  ChatbotLambda.parse_nova (JDict fields) = Ret (JStr (py_str (JDict fields))).
Proof.
  intros Hc Hk. unfold ChatbotLambda.parse_nova, Py.contains, Py.getitem_key.
  rewrite Hc, Hk. reflexivity.
Qed.

Lemma parse_claude_no_content (fields : list (string * json)) :
  Py.assoc "content" fields = None ->
  ChatbotLambda.parse_claude (JDict fields) = Raise (KeyError (JStr "content")).
Proof.
  intros Hc. unfold ChatbotLambda.parse_claude, ChatbotLambda.first_content_text,
    Py.getitem_key.
  rewrite Hc. reflexivity.
Qed.

(** C5, as the code has it. The request format and the response parser
    are both chosen by whether the model identifier contains
    [nova-premier]. When the decoded reply is an object with neither a
    [content] nor a [completion] field, the Nova branch returns the whole
    payload as a string; the other branch has no such fallback and returns
    the apology text naming the missing key. Neither raises. *)
Theorem response_format_by_model_id (w : World) (message : json)
    (model_id raw : string) (fields : list (string * json)) :
  ChatbotLambda.model_id_of_arn (default "" (environ w !! "MODEL_ARN")) = Ret model_id ->
  invoke_model w model_id (json_dumps (ChatbotLambda.request_body model_id message))
  = Ret raw ->
  json_loads raw = Ret (JDict fields) ->
  Py.assoc "content" fields = None ->
  Py.assoc "completion" fields = None ->
  (PyStr.substring_of "nova-premier" model_id ->
   ChatbotLambda.request_body model_id message = ChatbotLambda.nova_request message /\
   ChatbotLambda.parse_response model_id = ChatbotLambda.parse_nova /\
   ChatbotLambda.fallback_response w message = JStr (py_str (JDict fields))) /\
  (~ PyStr.substring_of "nova-premier" model_id ->
   ChatbotLambda.request_body model_id message = ChatbotLambda.claude_request message /\
   ChatbotLambda.parse_response model_id = ChatbotLambda.parse_claude /\
   ChatbotLambda.fallback_response w message
   = ChatbotLambda.apology (KeyError (JStr "content"))).
Proof.
  intros Hid Hcall Hload Hc Hk.
  unfold ChatbotLambda.fallback_response.
  rewrite (fallback_body_steps _ _ _ _ _ Hid Hcall Hload).
  unfold ChatbotLambda.request_body, ChatbotLambda.parse_response.
  split.
  - intros Hnova. apply contains_spec in Hnova. rewrite Hnova.
    rewrite (parse_nova_no_field _ Hc Hk). repeat split.
  - intros Hother. apply contains_false in Hother. rewrite Hother.
    rewrite (parse_claude_no_content _ Hc). repeat split.
Qed.

(** C10. A model ARN that starts with [arn:aws:bedrock:] and contains
    [inference-profile] is replaced by the fixed identifier
    [us.amazon.nova-premier-v1:0], whatever model the profile names; the
    model is invoked under that identifier with the Nova request, and
    the reply is read by the Nova parser. *)
Theorem inference_profile_forces_nova (w : World) (model_arn : string)
    (message : json) :
  (exists rest, model_arn = "arn:aws:bedrock:" +:+ rest) ->
  PyStr.substring_of "inference-profile" model_arn ->
  ChatbotLambda.model_id_of_arn model_arn = Ret "us.amazon.nova-premier-v1:0" /\
  ChatbotLambda.request_body "us.amazon.nova-premier-v1:0" message
  = ChatbotLambda.nova_request message /\
  ChatbotLambda.parse_response "us.amazon.nova-premier-v1:0" = ChatbotLambda.parse_nova /\
  (environ w !! "MODEL_ARN" = Some model_arn ->
   ChatbotLambda.fallback_body w message
   = (raw ← invoke_model w "us.amazon.nova-premier-v1:0"
              (json_dumps (ChatbotLambda.nova_request message));
      response_body ← json_loads raw;
      ChatbotLambda.parse_nova response_body)).
Proof.
  intros Hprefix Hprofile.
  apply startswith_spec in Hprefix. apply contains_spec in Hprofile.
  assert (Hid : ChatbotLambda.model_id_of_arn model_arn
                = Ret "us.amazon.nova-premier-v1:0").
  { unfold ChatbotLambda.model_id_of_arn. rewrite Hprefix, Hprofile. reflexivity. }
  repeat split; [exact Hid|].
  intros Henv. unfold ChatbotLambda.fallback_body.
  rewrite Henv. cbn [from_option id]. rewrite Hid. reflexivity.
Qed.

End Lambda.

Section LambdaRequests.
Context {py : Builtins}.

Lemma process_body_no_knowledge_base (w : World) (message session_id : json) :
  default "" (environ w !! "KNOWLEDGE_BASE_ID") = "" ->
  ChatbotLambda.process_body w message session_id
  = Ret (ChatbotLambda.fallback_response w message).
Proof.
  intros Hkb. unfold ChatbotLambda.process_body.
  destruct (model_id_of_arn_returns (default "" (environ w !! "MODEL_ARN")))
    as [model_id ->].
  cbn [mbind outcome_bind]. rewrite Hkb. reflexivity.
Qed.

(** The handler on a request whose body decodes to a JSON object. *)
Lemma handler_object_body (w : World) (event : gmap string json)
    (fields : list (string * json)) :
  py_json_loads (default (JStr "{}") (event !! "body")) = Ret (JDict fields) ->
  exists user_message,
    ChatbotLambda.handler w event
    = {| ChatbotLambda.statusCode := 200;
         ChatbotLambda.headers := ChatbotLambda.ok_headers;
         ChatbotLambda.body :=
           json_dumps
             (JDict [("response",
                      ChatbotLambda.process_message w user_message
                        (default (JStr "default") (Py.assoc "session_id" fields)));
                     ("session_id",
                      default (JStr "default") (Py.assoc "session_id" fields))]) |}.
Proof.
  intros Hbody. unfold ChatbotLambda.handler, ChatbotLambda.handler_body.
  rewrite Hbody. cbn [mbind outcome_bind Py.get try_except].
  eexists. reflexivity.
Qed.

(** The result of [fallback_response], step by step: the model is
    invoked under the derived identifier with the request of its format;
    a call that raises, a reply that does not decode, and a decoded reply
    the parser cannot read each give the apology text. *)
Lemma fallback_response_steps (w : World) (message : json) (model_id : string) :
  ChatbotLambda.model_id_of_arn (default "" (environ w !! "MODEL_ARN")) = Ret model_id ->
  ChatbotLambda.fallback_response w message
  = match invoke_model w model_id
            (json_dumps (ChatbotLambda.request_body model_id message)) with
    | Raise e =>
        JStr ("I apologize, but I'm having trouble processing your request right now. Error: "
              +:+ exn_str e)
    | Ret raw =>
        match json_loads raw with
        | Raise e =>
            JStr ("I apologize, but I'm having trouble processing your request right now. Error: "
                  +:+ exn_str e)
        | Ret response_body =>
            match ChatbotLambda.parse_response model_id response_body with
            | Ret result => result
            | Raise e =>
                JStr ("I apologize, but I'm having trouble processing your request right now. Error: "
                      +:+ exn_str e)
            end
        end
    end.
Proof.
  intros Hid. unfold ChatbotLambda.fallback_response, ChatbotLambda.fallback_body.
  rewrite Hid. cbn [mbind outcome_bind].
  destruct (invoke_model w model_id _) as [raw|e]; [|reflexivity].
  cbn [mbind outcome_bind].
  destruct (json_loads raw) as [response_body|e]; [|reflexivity].
  cbn [mbind outcome_bind].
  destruct (ChatbotLambda.parse_response model_id response_body); reflexivity.
Qed.

(** C6, as the code has it. With [KNOWLEDGE_BASE_ID] unset or empty,
    [process_message] reaches the guard without raising and answers by
    the direct model path, the knowledge base not being queried: the
    model is invoked under the identifier derived from [MODEL_ARN], with
    the request of that identifier's format, and the answer read out of
    the decoded reply is returned as it is. Every failure on that path
    (the call, the decoding, the reading) gives the apology text instead,
    so nothing is raised. The result is text in every case but one: a
    reply whose answer field holds a value that is not text, which is
    passed on unconverted. *)
Theorem missing_knowledge_base_falls_back (w : World) (message session_id : json) :
  environ w !! "KNOWLEDGE_BASE_ID" = None \/
  environ w !! "KNOWLEDGE_BASE_ID" = Some "" ->
  exists model_id,
    ChatbotLambda.model_id_of_arn (default "" (environ w !! "MODEL_ARN")) = Ret model_id /\
    ChatbotLambda.process_body w message session_id
    = Ret (ChatbotLambda.fallback_response w message) /\
    ChatbotLambda.process_message w message session_id
    = match invoke_model w model_id
              (json_dumps (ChatbotLambda.request_body model_id message)) with
      | Raise e =>
          JStr ("I apologize, but I'm having trouble processing your request right now. Error: "
                +:+ exn_str e)
      | Ret raw =>
          match json_loads raw with
          | Raise e =>
              JStr ("I apologize, but I'm having trouble processing your request right now. Error: "
                    +:+ exn_str e)
          | Ret response_body =>
              match ChatbotLambda.parse_response model_id response_body with
              | Ret result => result
              | Raise e =>
                  JStr ("I apologize, but I'm having trouble processing your request right now. Error: "
                        +:+ exn_str e)
              end
          end
      end /\
    ((forall text, ChatbotLambda.process_message w message session_id <> JStr text) ->
     exists raw response_body,
       invoke_model w model_id
         (json_dumps (ChatbotLambda.request_body model_id message)) = Ret raw /\
       json_loads raw = Ret response_body /\
       ChatbotLambda.parse_response model_id response_body
       = Ret (ChatbotLambda.process_message w message session_id)).
Proof.
  intros Hkb.
  assert (Hempty : default "" (environ w !! "KNOWLEDGE_BASE_ID") = "").
  { destruct Hkb as [-> | ->]; reflexivity. }
  pose proof (process_body_no_knowledge_base w message session_id Hempty) as Hbody.
  destruct (model_id_of_arn_returns (default "" (environ w !! "MODEL_ARN")))
    as [model_id Hid].
  assert (Hpm : ChatbotLambda.process_message w message session_id
                = ChatbotLambda.fallback_response w message).
  { unfold ChatbotLambda.process_message. rewrite Hbody. reflexivity. }
  exists model_id. split; [exact Hid|]. split; [exact Hbody|].
  rewrite Hpm, (fallback_response_steps w message model_id Hid).
  split; [reflexivity|].
  destruct (invoke_model w model_id _) as [raw|e] eqn:Hcall.
  - destruct (json_loads raw) as [response_body|e] eqn:Hload.
    + destruct (ChatbotLambda.parse_response model_id response_body)
        as [result|e] eqn:Hparse.
      * intros _. exists raw, response_body. split; [reflexivity|].
        split; [exact Hload | exact Hparse].
      * intros Hnot. destruct (Hnot _ eq_refl).
    + intros Hnot. destruct (Hnot _ eq_refl).
  - intros Hnot. destruct (Hnot _ eq_refl).
Qed.

(** C7. When the body of a request decodes to a JSON object, the handler
    answers with status 200 and a body that carries, under [session_id],
    the value the request gave for it, unchanged; a request without
    [session_id], or without a body at all, is processed and answered with
    [default]. The request model of the standalone server gives
    [session_id] the same default. *)
Theorem session_id_echo (w : World) (event : gmap string json)
    (fields : list (string * json)) :
  py_json_loads (default (JStr "{}") (event !! "body")) = Ret (JDict fields) ->
  (forall sid, Py.assoc "session_id" fields = Some sid ->
     exists user_message,
       ChatbotLambda.handler w event
       = {| ChatbotLambda.statusCode := 200;
            ChatbotLambda.headers := ChatbotLambda.ok_headers;
            ChatbotLambda.body :=
              json_dumps
                (JDict [("response", ChatbotLambda.process_message w user_message sid);
                        ("session_id", sid)]) |}) /\
  (Py.assoc "session_id" fields = None ->
     exists user_message,
       ChatbotLambda.handler w event
       = {| ChatbotLambda.statusCode := 200;
            ChatbotLambda.headers := ChatbotLambda.ok_headers;
            ChatbotLambda.body :=
              json_dumps
                (JDict [("response",
                         ChatbotLambda.process_message w user_message (JStr "default"));
                        ("session_id", JStr "default")]) |}) /\
  (event !! "body" = None ->
     exists user_message,
       ChatbotLambda.handler w event
       = {| ChatbotLambda.statusCode := 200;
            ChatbotLambda.headers := ChatbotLambda.ok_headers;
            ChatbotLambda.body :=
              json_dumps
                (JDict [("response",
                         ChatbotLambda.process_message w user_message (JStr "default"));
                        ("session_id", JStr "default")]) |}) /\
  (forall text, Py.assoc "message" fields = Some (JStr text) ->
     (Py.assoc "session_id" fields = None ->
      Main.ChatMessage_validate (JDict fields)
      = Ret {| Main.message := text; Main.session_id := "default" |}) /\
     (forall sid, Py.assoc "session_id" fields = Some (JStr sid) ->
      Main.ChatMessage_validate (JDict fields)
      = Ret {| Main.message := text; Main.session_id := sid |})).
Proof.
  intros Hbody.
  destruct (handler_object_body w event fields Hbody) as [user_message Hh].
  split; [|split; [|split]].
  - intros sid Hsid. exists user_message. rewrite Hh, Hsid. reflexivity.
  - intros Hsid. exists user_message. rewrite Hh, Hsid. reflexivity.
  - intros Hnone. rewrite Hnone in Hbody. cbn in Hbody.
    rewrite json_loads_empty_object in Hbody. injection Hbody as <-.
    exists user_message. rewrite Hh. reflexivity.
  - intros text Hmsg. split.
    + intros Hsid. unfold Main.ChatMessage_validate. rewrite Hmsg, Hsid. reflexivity.
    + intros sid Hsid. unfold Main.ChatMessage_validate. rewrite Hmsg, Hsid. reflexivity.
Qed.

End LambdaRequests.

(** ** The properties on concrete requests *)

(** A Claude model identifier and a reply without [content]: the
    result is the apology text, not the payload as a string. *)
Lemma claude_branch_no_stringify :
  ChatbotLambda.model_id_of_arn Reference.claude_id = Ret Reference.claude_id /\
  PyStr.contains "nova-premier" Reference.claude_id = false /\
  json_loads (Builtins:=Reference.runtime) Reference.no_answer_text
  = Ret Reference.no_answer_json /\
  ChatbotLambda.fallback_response (py:=Reference.runtime)
    (Reference.world [("MODEL_ARN", Reference.claude_id)]
       (Ret Reference.no_answer_text))
    (JStr "hello")
  = JStr "I apologize, but I'm having trouble processing your request right now. Error: 'content'" /\
  py_str (py:=Reference.runtime) Reference.no_answer_json = "{'stopReason': 'end_turn'}" /\
  ChatbotLambda.fallback_response (py:=Reference.runtime)
    (Reference.world [("MODEL_ARN", Reference.claude_id)]
       (Ret Reference.no_answer_text))
    (JStr "hello")
  <> JStr (py_str (py:=Reference.runtime) Reference.no_answer_json).
Proof.
  split; [reflexivity|]. split; [reflexivity|]. split; [reflexivity|].
  split; [vm_compute; reflexivity|]. split; [vm_compute; reflexivity|].
  vm_compute. discriminate.
Qed.

Lemma response_format_by_model_id_witness :
  ChatbotLambda.fallback_response (py:=Reference.runtime)
    (Reference.world [("MODEL_ARN", Reference.profile_arn)]
       (Ret Reference.no_answer_text))
    (JStr "hello")
  = JStr (py_str (py:=Reference.runtime) Reference.no_answer_json) /\
  ChatbotLambda.fallback_response (py:=Reference.runtime)
    (Reference.world [("MODEL_ARN", Reference.claude_id)]
       (Ret Reference.no_answer_text))
    (JStr "hello")
  = ChatbotLambda.apology (py:=Reference.runtime) (KeyError (JStr "content")).
Proof.
  split.
  - destruct (response_format_by_model_id (py:=Reference.runtime)
                (Reference.world [("MODEL_ARN", Reference.profile_arn)]
                   (Ret Reference.no_answer_text))
                (JStr "hello") ChatbotLambda.nova_model_id Reference.no_answer_text
                [("stopReason", JStr "end_turn")]
                eq_refl eq_refl eq_refl eq_refl eq_refl) as (Hnova & _).
    apply Hnova. apply contains_spec. reflexivity.
  - destruct (response_format_by_model_id (py:=Reference.runtime)
                (Reference.world [("MODEL_ARN", Reference.claude_id)]
                   (Ret Reference.no_answer_text))
                (JStr "hello") Reference.claude_id Reference.no_answer_text
                [("stopReason", JStr "end_turn")]
                eq_refl eq_refl eq_refl eq_refl eq_refl) as (_ & Hclaude).
    apply Hclaude. apply contains_false. reflexivity.
Defined.

Lemma inference_profile_forces_nova_witness :
  ChatbotLambda.model_id_of_arn Reference.profile_arn
  = Ret "us.amazon.nova-premier-v1:0".
Proof.
  apply (inference_profile_forces_nova (py:=Reference.runtime)
           (Reference.world [("MODEL_ARN", Reference.profile_arn)]
              (Ret Reference.no_answer_text))
           Reference.profile_arn (JStr "hello")).
  - exists "us-east-1:123456789012:inference-profile/us.anthropic.claude-3-5-sonnet-20241022-v2:0".
    reflexivity.
  - exists "arn:aws:bedrock:us-east-1:123456789012:",
      "/us.anthropic.claude-3-5-sonnet-20241022-v2:0".
    reflexivity.
Defined.

(** No knowledge base is configured and the model puts a number where
    its text should be: the result is that number, not text. *)
Lemma fallback_result_not_text :
  environ (Reference.world [("MODEL_ARN", Reference.claude_id)]
             (Ret Samples.numeric_reply)) !! "KNOWLEDGE_BASE_ID" = None /\
  json_loads (Builtins:=Samples.runtime) Samples.numeric_reply
  = Ret (JDict [("content", JList [JDict [("text", JInt 42)]])]) /\
  ChatbotLambda.process_message (py:=Samples.runtime)
    (Reference.world [("MODEL_ARN", Reference.claude_id)] (Ret Samples.numeric_reply))
    (JStr "hello") (JStr "default")
  = JInt 42 /\
  (forall text,
     ChatbotLambda.process_message (py:=Samples.runtime)
       (Reference.world [("MODEL_ARN", Reference.claude_id)] (Ret Samples.numeric_reply))
       (JStr "hello") (JStr "default")
     <> JStr text).
Proof.
  assert (Hrun : ChatbotLambda.process_message (py:=Samples.runtime)
                   (Reference.world [("MODEL_ARN", Reference.claude_id)]
                      (Ret Samples.numeric_reply))
                   (JStr "hello") (JStr "default")
                 = JInt 42).
  { vm_compute. reflexivity. }
  split; [reflexivity|]. split; [reflexivity|]. split; [exact Hrun|].
  intros text. rewrite Hrun. discriminate.
Qed.

Lemma missing_knowledge_base_falls_back_witness :
  ChatbotLambda.process_message (py:=Samples.runtime)
    (Reference.world [("MODEL_ARN", Reference.claude_id)]
       (Ret (Reference.reply_text "Slicks are not allowed.")))
    (JStr "hello") (JStr "default")
  = JStr "Slicks are not allowed." /\
  ChatbotLambda.process_message (py:=Samples.runtime)
    (Reference.world [("MODEL_ARN", Reference.claude_id); ("KNOWLEDGE_BASE_ID", "")]
       (Raise (OtherError "AccessDeniedException")))
    (JStr "hello") (JStr "default")
  = JStr "I apologize, but I'm having trouble processing your request right now. Error: AccessDeniedException".
Proof.
  split.
  - destruct (missing_knowledge_base_falls_back (py:=Samples.runtime)
                (Reference.world [("MODEL_ARN", Reference.claude_id)]
                   (Ret (Reference.reply_text "Slicks are not allowed.")))
                (JStr "hello") (JStr "default"))
      as (model_id & Hid & _ & Hrun & _); [left; reflexivity|].
    injection Hid as <-. rewrite Hrun. vm_compute. reflexivity.
  - destruct (missing_knowledge_base_falls_back (py:=Samples.runtime)
                (Reference.world
                   [("MODEL_ARN", Reference.claude_id); ("KNOWLEDGE_BASE_ID", "")]
                   (Raise (OtherError "AccessDeniedException")))
                (JStr "hello") (JStr "default"))
      as (model_id & Hid & _ & Hrun & _); [right; reflexivity|].
    rewrite Hrun. reflexivity.
Defined.

Lemma session_id_echo_witness :
  exists user_message,
    ChatbotLambda.handler (py:=Reference.runtime)
      (Reference.world [("MODEL_ARN", Reference.claude_id)]
         (Ret (Reference.reply_text "Slicks are not allowed.")))
      {[ "body" := JStr Reference.session_request ]}
    = {| ChatbotLambda.statusCode := 200;
         ChatbotLambda.headers := ChatbotLambda.ok_headers;
         ChatbotLambda.body :=
           json_dumps (Builtins:=Reference.runtime)
             (JDict [("response",
                      ChatbotLambda.process_message (py:=Reference.runtime)
                        (Reference.world [("MODEL_ARN", Reference.claude_id)]
                           (Ret (Reference.reply_text "Slicks are not allowed.")))
                        user_message (JStr "abc-123"));
                     ("session_id", JStr "abc-123")]) |}.
Proof.
  assert (Hbody : py_json_loads (py:=Reference.runtime)
                    (default (JStr "{}")
                       (({[ "body" := JStr Reference.session_request ]}
                         : gmap string json) !! "body"))
                  = Ret (JDict [("message", JStr "hello");
                                ("session_id", JStr "abc-123")])).
  { vm_compute. reflexivity. }
  destruct (session_id_echo (py:=Reference.runtime)
              (Reference.world [("MODEL_ARN", Reference.claude_id)]
                 (Ret (Reference.reply_text "Slicks are not allowed.")))
              {[ "body" := JStr Reference.session_request ]}
              [("message", JStr "hello"); ("session_id", JStr "abc-123")]
              Hbody) as (Hecho & _).
  apply Hecho. reflexivity.
Defined.

(** The handler run to the end on that request. *)
Example handler_echo_run :
  ChatbotLambda.body
    (ChatbotLambda.handler (py:=Reference.runtime)
       (Reference.world [("MODEL_ARN", Reference.claude_id)]
          (Ret (Reference.reply_text "Slicks are not allowed.")))
       {[ "body" := JStr Reference.session_request ]})
  = Reference.dumps (JDict [("response", JStr "Slicks are not allowed.");
                            ("session_id", JStr "abc-123")]).
Proof. vm_compute. reflexivity. Qed.

(** The hybrid path run to the end while the model endpoint answers. *)
Example hybrid_run :
  Main.process_message (py:=Reference.runtime)
    (Reference.world [] (Ret (Reference.reply_text "Slicks are not allowed.")))
    "Help me build a car setup" "default"
  = Ret {| Main.response :=
             "Based on the rules: Slicks are not allowed."
             +:+ PyStr.nl +:+ PyStr.indent12 +:+ PyStr.nl +:+ PyStr.indent12
             +:+ "Current data: MCP query result for: Help me build a car setup (placeholder - implement MCP client)";
           Main.sources := [JStr "Spec3 Rulebook"; JStr "Google Sheets via MCP"];
           Main.timestamp := Some "2024-05-01T12:00:00.000000" |}.
Proof. vm_compute. reflexivity. Qed.

(** * Further properties of the code *)

(** ** main.py: routing and the single-source paths *)

Section Routing.
Context {py : Builtins}.

Lemma classify_range (message : string) :
  Main._classify_query message = "hybrid" \/
  Main._classify_query message = "rules" \/
  Main._classify_query message = "parts_or_schedule" \/
  Main._classify_query message = "general".
Proof.
  rewrite classify_cases.
  destruct (PyStr.any_in Main.hybrid_keywords _); [tauto|].
  destruct (PyStr.any_in Main.rules_keywords _); [tauto|].
  destruct (PyStr.any_in Main.dynamic_keywords _); tauto.
Qed.

(** X1. The dispatch of [process_message] is exhaustive and exact: a
    message classified [rules] goes to the rules querier, one classified
    [parts_or_schedule] to the dynamic querier, one classified [hybrid]
    to the synthesizer, and the final [else] branch, the general querier,
    serves exactly the messages classified [general]. *)
Theorem route_dispatch (w : World) (message : string) :
  (Main._classify_query message = "rules" /\
   Main.route w message = Main._query_knowledge_base w message) \/
  (Main._classify_query message = "parts_or_schedule" /\
   Main.route w message = Main._query_mcp_server message) \/
  (Main._classify_query message = "hybrid" /\
   Main.route w message = Main._query_both_sources w message) \/
  (Main._classify_query message = "general" /\
   Main.route w message = Main._handle_general_query w message).
Proof.
  unfold Main.route.
  destruct (classify_range message) as [H | [H | [H | H]]]; rewrite H; cbn; tauto.
Qed.

Lemma substring_of_weaken (w suffix s : string) :
  PyStr.substring_of (w +:+ suffix) s -> PyStr.substring_of w s.
Proof.
  intros (pre & post & ->). exists pre, (suffix +:+ post).
  rewrite app_assoc. reflexivity.
Qed.

(** X2. The keyword [rulebook] never decides anything: every text that
    contains it contains [rule], which is in the same list, so the rules
    test gives the same result without it. *)
Theorem rulebook_keyword_redundant (text : string) :
  PyStr.any_in Main.rules_keywords text
  = PyStr.any_in ["regulation"; "legal"; "allowed"; "requirement"; "spec"; "rule"] text.
Proof.
  destruct (PyStr.any_in ["regulation"; "legal"; "allowed"; "requirement"; "spec"; "rule"]
              text) eqn:Hshort.
  - apply any_in_spec. apply any_in_spec in Hshort.
    destruct Hshort as (word & Hin & Hsub). exists word. split; [|exact Hsub].
    simpl in *. tauto.
  - apply any_in_false. apply any_in_false in Hshort.
    intros (word & Hin & Hsub). apply Hshort.
    destruct Hin as [<- | Hin].
    + exists "rule". split; [simpl; tauto|].
      apply (substring_of_weaken "rule" "book"). exact Hsub.
    + exists word. split; [exact Hin | exact Hsub].
Qed.

Lemma route_dynamic (w : World) (message : string) :
  Main._classify_query message = "parts_or_schedule" ->
  Main.route w message = Main._query_mcp_server message.
Proof. intros Hc. unfold Main.route. rewrite Hc. reflexivity. Qed.

(** X3. A message classified [parts_or_schedule] is answered without
    any remote call: in every world the response is the placeholder text
    quoting the message, with the one source label of the dynamic
    querier, and nothing is raised. *)
Theorem dynamic_question_placeholder (w : World) (message session_id : string) :
  Main._classify_query message = "parts_or_schedule" ->
  Main.process_message w message session_id
  = Ret {| Main.response :=
             "MCP query result for: " +:+ message
             +:+ " (placeholder - implement MCP client)";
           Main.sources := [JStr "Google Sheets via MCP"];
           Main.timestamp := Some (now_isoformat w) |}.
Proof.
  intros Hc. unfold Main.process_message.
  rewrite (route_dynamic _ _ Hc), query_mcp_server_eq.
  apply package_response_text.
  - rewrite lookup_answer. reflexivity.
  - rewrite lookup_sources. reflexivity.
Qed.

Lemma route_general (w : World) (message : string) :
  Main._classify_query message = "general" ->
  Main.route w message = Main._handle_general_query w message.
Proof. intros Hc. unfold Main.route. rewrite Hc. reflexivity. Qed.

(** X4. When the [try] block of the general querier raises, a message
    classified [general] gets the fixed invitation to be more specific,
    with no sources; unlike the rules querier, the answer does not carry
    the text of the error. *)
Theorem general_query_failure (w : World) (message session_id : string) (e : exn) :
  Main._classify_query message = "general" ->
  Main.invoke_for_text w 500
    ("You are a helpful assistant for Spec3 racing. Answer this question: "
     +:+ message) = Raise e ->
  Main.process_message w message session_id
  = Ret {| Main.response :=
             "I'm here to help with Spec3 racing questions! Could you be more specific?";
           Main.sources := [];
           Main.timestamp := Some (now_isoformat w) |}.
Proof.
  intros Hc Hfail. unfold Main.process_message.
  rewrite (route_general _ _ Hc). unfold Main._handle_general_query.
  rewrite Hfail. cbn [mbind outcome_bind try_except].
  apply package_response_text.
  - rewrite lookup_answer. reflexivity.
  - rewrite lookup_sources. reflexivity.
Qed.

(** The [try] block of a model call returns the [text] of the first
    content segment of the reply. *)
Lemma invoke_for_text_first_segment (w : World) (max_tokens : Z) (content raw : string)
    (fields item : list (string * json)) (rest : list json) (text : json) :
  invoke_model w Main.claude_model
    (json_dumps (Main.claude_request max_tokens content)) = Ret raw ->
  json_loads raw = Ret (JDict fields) ->
  Py.assoc "content" fields = Some (JList (JDict item :: rest)) ->
  Py.assoc "text" item = Some text ->
  Main.invoke_for_text w max_tokens content = Ret text.
Proof.
  intros Hcall Hload Hcontent Htext. unfold Main.invoke_for_text.
  rewrite Hcall. cbn [mbind outcome_bind]. rewrite Hload.
  cbn [mbind outcome_bind Py.getitem_key]. rewrite Hcontent.
  cbn [mbind outcome_bind Py.getitem_index lookup list_lookup Py.getitem_key].
  rewrite Htext. reflexivity.
Qed.

(** X5. A message classified [rules] whose model reply decodes to an
    object with a non-empty [content] list, the first segment holding
    text, is answered with that text and the source label
    [Spec3 Rulebook]; later segments of the reply are not used. *)
Theorem rules_answer_from_model (w : World) (message session_id raw : string)
    (fields item : list (string * json)) (rest : list json) (text : string) :
  Main._classify_query message = "rules" ->
  invoke_model w Main.claude_model
    (json_dumps
       (Main.claude_request 1000
          ("Based on the Spec3 racing rulebook and documentation, please answer: "
           +:+ message))) = Ret raw ->
  json_loads raw = Ret (JDict fields) ->
  Py.assoc "content" fields = Some (JList (JDict item :: rest)) ->
  Py.assoc "text" item = Some (JStr text) ->
  Main.process_message w message session_id
  = Ret {| Main.response := text;
           Main.sources := [JStr "Spec3 Rulebook"];
           Main.timestamp := Some (now_isoformat w) |}.
Proof.
  intros Hc Hcall Hload Hcontent Htext. unfold Main.process_message.
  rewrite (route_rules _ _ Hc), query_knowledge_base_cases.
  rewrite (invoke_for_text_first_segment _ _ _ _ _ _ _ _ Hcall Hload Hcontent Htext).
  apply package_response_text.
  - rewrite lookup_answer. reflexivity.
  - rewrite lookup_sources. reflexivity.
Qed.

(** X6. A message classified [general] whose model reply holds text in
    its first content segment is answered with that text and the source
    label [General Spec3 Knowledge]; the call asks for at most 500
    tokens under the assistant prompt. *)
Theorem general_answer_from_model (w : World) (message session_id raw : string)
    (fields item : list (string * json)) (rest : list json) (text : string) :
  Main._classify_query message = "general" ->
  invoke_model w Main.claude_model
    (json_dumps
       (Main.claude_request 500
          ("You are a helpful assistant for Spec3 racing. Answer this question: "
           +:+ message))) = Ret raw ->
  json_loads raw = Ret (JDict fields) ->
  Py.assoc "content" fields = Some (JList (JDict item :: rest)) ->
  Py.assoc "text" item = Some (JStr text) ->
  Main.process_message w message session_id
  = Ret {| Main.response := text;
           Main.sources := [JStr "General Spec3 Knowledge"];
           Main.timestamp := Some (now_isoformat w) |}.
Proof.
  intros Hc Hcall Hload Hcontent Htext. unfold Main.process_message.
  rewrite (route_general _ _ Hc). unfold Main._handle_general_query.
  rewrite (invoke_for_text_first_segment _ _ _ _ _ _ _ _ Hcall Hload Hcontent Htext).
  cbn [mbind outcome_bind try_except].
  apply package_response_text.
  - rewrite lookup_answer. reflexivity.
  - rewrite lookup_sources. reflexivity.
Qed.

End Routing.

Section Endpoint.
Context {py : Builtins}.

Lemma package_response_dict (w : World) (a : json) (srcs : list json) :
  Main.package_response w {[ "answer" := a; "sources" := JList srcs ]}
  = (text ← validate_str a;
     Ret {| Main.response := text; Main.sources := srcs;
            Main.timestamp := Some (now_isoformat w) |}).
Proof.
  unfold Main.package_response, Main.ChatResponse_new.
  rewrite lookup_answer, lookup_sources. cbn [default from_option id].
  destruct (validate_str a); reflexivity.
Qed.

(** What [chat_endpoint] answers when the selected provider result
    holds a given answer. *)
Lemma chat_endpoint_dict (w : World) (m : Main.ChatMessage) (a : json)
    (srcs : list json) :
  Main.route w (Main.message m) = {[ "answer" := a; "sources" := JList srcs ]} ->
  Main.chat_endpoint w m
  = match validate_str a with
    | Ret text => Main.Http200 {| Main.response := text; Main.sources := srcs;
                                  Main.timestamp := Some (now_isoformat w) |}
    | Raise e => Main.Http500 (exn_str e)
    end.
Proof.
  intros Hroute. unfold Main.chat_endpoint, Main.process_message.
  rewrite Hroute, package_response_dict.
  destruct (validate_str a); reflexivity.
Qed.

Lemma validate_str_raise (v : json) (e : exn) :
  validate_str v = Raise e -> (forall s, v <> JStr s) /\ pydantic_str v = Raise e.
Proof.
  destruct v; cbn; intros Hv; try (split; [discriminate | exact Hv]).
  discriminate.
Qed.

(** X7. The [/chat] route answers with status 500 in one situation
    only: the message is classified [rules] or [general], the model call
    succeeded, the [text] of its first content segment is not a string,
    and validation of the response model rejected it; the detail is the
    text of that validation error. Failures of the model call itself, and
    hybrid and dynamic questions, never produce a 500. *)
Theorem chat_endpoint_failure (w : World) (m : Main.ChatMessage) (detail : string) :
  Main.chat_endpoint w m = Main.Http500 detail ->
  exists (v : json) (e : exn),
    ((Main._classify_query (Main.message m) = "rules" /\
      Main.invoke_for_text w 1000
        ("Based on the Spec3 racing rulebook and documentation, please answer: "
         +:+ Main.message m) = Ret v) \/
     (Main._classify_query (Main.message m) = "general" /\
      Main.invoke_for_text w 500
        ("You are a helpful assistant for Spec3 racing. Answer this question: "
         +:+ Main.message m) = Ret v)) /\
    (forall s, v <> JStr s) /\
    pydantic_str v = Raise e /\
    detail = exn_str e.
Proof.
  intros H500.
  destruct (classify_range (Main.message m)) as [Hc | [Hc | [Hc | Hc]]].
  - pose proof (query_knowledge_base_cases w (Main.message m)) as Hkb.
    destruct (Main.invoke_for_text w 1000 _);
      rewrite (chat_endpoint_dict w m _ _
                 (eq_trans (route_hybrid _ _ Hc)
                           (query_both_sources_eq _ _ _ _ Hkb))) in H500;
      discriminate.
  - pose proof (query_knowledge_base_cases w (Main.message m)) as Hkb.
    destruct (Main.invoke_for_text w 1000 _) as [v|e0] eqn:Hcall;
      rewrite (chat_endpoint_dict w m _ _ (eq_trans (route_rules _ _ Hc) Hkb)) in H500;
      [|discriminate].
    destruct (validate_str v) as [text|e] eqn:Hv; [discriminate|].
    injection H500 as <-. apply validate_str_raise in Hv as [Hns Hp].
    exists v, e. split; [left; split; [exact Hc | reflexivity]|].
    split; [exact Hns|]. split; [exact Hp | reflexivity].
  - rewrite (chat_endpoint_dict w m _ _
               (eq_trans (route_dynamic _ _ Hc) (query_mcp_server_eq _))) in H500.
    discriminate.
  - assert (Hg : Main._handle_general_query w (Main.message m)
                 = match Main.invoke_for_text w 500
                           ("You are a helpful assistant for Spec3 racing. Answer this question: "
                            +:+ Main.message m) with
                   | Ret text => {[ "answer" := text;
                                    "sources" := JList [JStr "General Spec3 Knowledge"] ]}
                   | Raise _ =>
                       {[ "answer" :=
                            JStr "I'm here to help with Spec3 racing questions! Could you be more specific?";
                          "sources" := JList [] ]}
                   end).
    { unfold Main._handle_general_query.
      destruct (Main.invoke_for_text w 500 _); reflexivity. }
    destruct (Main.invoke_for_text w 500 _) as [v|e0] eqn:Hcall;
      rewrite (chat_endpoint_dict w m _ _ (eq_trans (route_general _ _ Hc) Hg)) in H500;
      [|discriminate].
    destruct (validate_str v) as [text|e] eqn:Hv; [discriminate|].
    injection H500 as <-. apply validate_str_raise in Hv as [Hns Hp].
    exists v, e. split; [right; split; [exact Hc | reflexivity]|].
    split; [exact Hns|]. split; [exact Hp | reflexivity].
Qed.

End Endpoint.

Lemma dynamic_question_placeholder_witness :
  Main.process_message (py:=Reference.runtime)
    (Reference.world [] (Raise (OtherError "Read timed out")))
    "What is the price of a part?" "default"
  = Ret {| Main.response :=
             "MCP query result for: What is the price of a part? (placeholder - implement MCP client)";
           Main.sources := [JStr "Google Sheets via MCP"];
           Main.timestamp := Some "2024-05-01T12:00:00.000000" |}.
Proof.
  apply (dynamic_question_placeholder (py:=Reference.runtime)). reflexivity.
Defined.

Lemma general_query_failure_witness :
  Main.process_message (py:=Reference.runtime)
    (Reference.world [] (Raise (OtherError "Read timed out"))) "Hello" "default"
  = Ret {| Main.response :=
             "I'm here to help with Spec3 racing questions! Could you be more specific?";
           Main.sources := [];
           Main.timestamp := Some "2024-05-01T12:00:00.000000" |}.
Proof.
  apply (general_query_failure (py:=Reference.runtime)
           (Reference.world [] (Raise (OtherError "Read timed out")))
           "Hello" "default" (OtherError "Read timed out"));
    reflexivity.
Defined.

Lemma rules_answer_from_model_witness :
  Main.process_message (py:=Samples.runtime)
    (Reference.world [] (Ret Samples.two_segments_reply))
    "What is the rule for legal tires?" "default"
  = Ret {| Main.response := "First.";
           Main.sources := [JStr "Spec3 Rulebook"];
           Main.timestamp := Some "2024-05-01T12:00:00.000000" |}.
Proof.
  apply (rules_answer_from_model (py:=Samples.runtime)
           (Reference.world [] (Ret Samples.two_segments_reply))
           "What is the rule for legal tires?" "default" Samples.two_segments_reply
           [("content", JList [JDict [("text", JStr "First.")];
                               JDict [("text", JStr "Second.")]])]
           [("text", JStr "First.")] [JDict [("text", JStr "Second.")]] "First.");
    reflexivity.
Defined.

Lemma general_answer_from_model_witness :
  Main.process_message (py:=Samples.runtime)
    (Reference.world [] (Ret (Reference.reply_text "Slicks are not allowed.")))
    "Hello" "default"
  = Ret {| Main.response := "Slicks are not allowed.";
           Main.sources := [JStr "General Spec3 Knowledge"];
           Main.timestamp := Some "2024-05-01T12:00:00.000000" |}.
Proof.
  apply (general_answer_from_model (py:=Samples.runtime)
           (Reference.world [] (Ret (Reference.reply_text "Slicks are not allowed.")))
           "Hello" "default" (Reference.reply_text "Slicks are not allowed.")
           [("content", JList [JDict [("text", JStr "Slicks are not allowed.")]])]
           [("text", JStr "Slicks are not allowed.")] [] "Slicks are not allowed.");
    reflexivity.
Defined.

(** A rules question answered by the model with a number where text is
    expected. *)
Lemma chat_endpoint_failure_witness :
  Main.chat_endpoint (py:=Samples.runtime)
    (Reference.world [] (Ret Samples.numeric_reply))
    {| Main.message := "What is the rule for legal tires?";
       Main.session_id := "default" |}
  = Main.Http500 "ValidationError" /\
  exists (v : json) (e : exn),
    ((Main._classify_query (py:=Samples.runtime) "What is the rule for legal tires?"
      = "rules" /\
      Main.invoke_for_text (py:=Samples.runtime)
        (Reference.world [] (Ret Samples.numeric_reply)) 1000
        ("Based on the Spec3 racing rulebook and documentation, please answer: "
         +:+ "What is the rule for legal tires?") = Ret v) \/
     (Main._classify_query (py:=Samples.runtime) "What is the rule for legal tires?"
      = "general" /\
      Main.invoke_for_text (py:=Samples.runtime)
        (Reference.world [] (Ret Samples.numeric_reply)) 500
        ("You are a helpful assistant for Spec3 racing. Answer this question: "
         +:+ "What is the rule for legal tires?") = Ret v)) /\
    (forall s, v <> JStr s) /\
    pydantic_str (Builtins:=Samples.runtime) v = Raise e /\
    "ValidationError" = exn_str (Builtins:=Samples.runtime) e.
Proof.
  assert (H500 : Main.chat_endpoint (py:=Samples.runtime)
                   (Reference.world [] (Ret Samples.numeric_reply))
                   {| Main.message := "What is the rule for legal tires?";
                      Main.session_id := "default" |}
                 = Main.Http500 "ValidationError").
  { vm_compute. reflexivity. }
  split; [exact H500|].
  exact (chat_endpoint_failure (py:=Samples.runtime) _ _ _ H500).
Defined.

(** ** chatbot-lambda: the model identifier *)

Section ModelIdentifier.

Lemma split_app_sep (sep : ascii) (a b : string) :
  PyStr.split sep (a +:+ String sep b) = PyStr.split sep a ++ PyStr.split sep b.
Proof.
  induction a as [|c a IH].
  - rewrite app_empty_l. simpl. rewrite Ascii.eqb_refl. reflexivity.
  - rewrite app_cons. simpl. destruct (Ascii.eqb c sep).
    + rewrite IH. reflexivity.
    + rewrite IH. destruct (PyStr.split sep a) eqn:Hs; [|reflexivity].
      destruct (split_nonempty _ _ Hs).
Qed.

Lemma split_no_sep (sep : ascii) (s : string) :
  PyStr.contains (String sep "") s = false -> PyStr.split sep s = [s].
Proof.
  induction s as [|c s IH]; [reflexivity|].
  simpl. rewrite andb_true_r, Ascii.eqb_sym. intros H.
  apply orb_false_iff in H as [Hc Hs]. rewrite Hc, (IH Hs). reflexivity.
Qed.

Lemma last_sep (sep : ascii) (s : string) :
  PyStr.contains (String sep "") s = true ->
  exists pre t, s = pre +:+ String sep t /\ PyStr.contains (String sep "") t = false.
Proof.
  induction s as [|c s IH]; [discriminate|].
  destruct (PyStr.contains (String sep "") s) eqn:Hs.
  - intros _. destruct (IH eq_refl) as (pre & t & -> & Ht).
    exists (String c pre), t. split; [reflexivity | exact Ht].
  - simpl. rewrite Hs, orb_false_r, andb_true_r. intros Hc.
    apply Ascii.eqb_eq in Hc as <-. exists "", s. split; [reflexivity | exact Hs].
Qed.

(** What [s.split(sep)[-1]] is: the text after the last separator, or
    the whole text when it holds none. *)
Lemma split_last (sep : ascii) (s : string) :
  exists t, last (PyStr.split sep s) = Some t /\
            PyStr.contains (String sep "") t = false /\
            (s = t \/ exists pre, s = pre +:+ String sep t).
Proof.
  destruct (PyStr.contains (String sep "") s) eqn:Hs.
  - destruct (last_sep _ _ Hs) as (pre & t & -> & Ht). exists t.
    rewrite split_app_sep, (split_no_sep _ _ Ht), last_snoc. eauto.
  - exists s. rewrite (split_no_sep _ _ Hs). auto.
Qed.

(** X8. How the model identifier is read off [MODEL_ARN]. A value that
    does not start with [arn:aws:bedrock:] is used as it is. An ARN that
    does not mention [inference-profile] yields the text after its last
    slash, which holds no slash itself; an ARN without any slash is used
    whole. *)
Theorem model_id_of_arn_spec (model_arn : string) :
  (PyStr.startswith "arn:aws:bedrock:" model_arn = false ->
   ChatbotLambda.model_id_of_arn model_arn = Ret model_arn) /\
  (PyStr.startswith "arn:aws:bedrock:" model_arn = true ->
   ~ PyStr.substring_of "inference-profile" model_arn ->
   exists model_id,
     ChatbotLambda.model_id_of_arn model_arn = Ret model_id /\
     ~ PyStr.substring_of "/" model_id /\
     (model_arn = model_id \/ exists pre, model_arn = pre +:+ "/" +:+ model_id)).
Proof.
  unfold ChatbotLambda.model_id_of_arn. split.
  - intros ->. reflexivity.
  - intros -> Hprofile. apply contains_false in Hprofile. rewrite Hprofile.
    destruct (split_last "/" model_arn) as (t & Hlast & Hno & Hshape).
    exists t. unfold Py.getitem_last. rewrite Hlast.
    split; [reflexivity|]. split; [apply contains_false; exact Hno | exact Hshape].
Qed.

End ModelIdentifier.

Lemma model_id_of_arn_spec_witness :
  ChatbotLambda.model_id_of_arn "anthropic.claude-v2" = Ret "anthropic.claude-v2" /\
  exists model_id,
    ChatbotLambda.model_id_of_arn
      "arn:aws:bedrock:us-east-1::foundation-model/anthropic.claude-v2"
    = Ret model_id /\
    ~ PyStr.substring_of "/" model_id /\
    ("arn:aws:bedrock:us-east-1::foundation-model/anthropic.claude-v2" = model_id \/
     exists pre,
       "arn:aws:bedrock:us-east-1::foundation-model/anthropic.claude-v2"
       = pre +:+ "/" +:+ model_id).
Proof.
  split.
  - apply (proj1 (model_id_of_arn_spec "anthropic.claude-v2")). reflexivity.
  - apply (proj2 (model_id_of_arn_spec
                    "arn:aws:bedrock:us-east-1::foundation-model/anthropic.claude-v2")).
    + reflexivity.
    + apply contains_false. reflexivity.
Defined.

Example model_id_foundation_model :
  ChatbotLambda.model_id_of_arn
    "arn:aws:bedrock:us-east-1::foundation-model/anthropic.claude-v2"
  = Ret "anthropic.claude-v2".
Proof. reflexivity. Qed.

(** ** chatbot-lambda: reading the model reply *)

Section Replies.
Context {py : Builtins}.

Lemma first_content_text_segment (fields item : list (string * json))
    (rest : list json) :
  Py.assoc "content" fields = Some (JList (JDict item :: rest)) ->
  ChatbotLambda.first_content_text (JDict fields)
  = match Py.assoc "text" item with
    | Some v => Ret v
    | None => Raise (KeyError (JStr "text"))
    end.
Proof.
  intros Hc. unfold ChatbotLambda.first_content_text, Py.getitem_key.
  rewrite Hc. reflexivity.
Qed.

Lemma parse_nova_segment (fields item : list (string * json)) (rest : list json) :
  Py.assoc "content" fields = Some (JList (JDict item :: rest)) ->
  ChatbotLambda.parse_nova (JDict fields)
  = ChatbotLambda.first_content_text (JDict fields).
Proof.
  intros Hc. unfold ChatbotLambda.parse_nova, Py.contains, Py.getitem_key.
  rewrite Hc. reflexivity.
Qed.

(** X9. In both formats a reply whose [content] list starts with a
    segment holding [text] is answered with that [text]: later segments
    are not read, and in the Nova format a [completion] field beside it is
    not read either. *)
Theorem fallback_first_segment (w : World) (message : json) (model_id raw : string)
    (fields item : list (string * json)) (rest : list json) (v : json) :
  ChatbotLambda.model_id_of_arn (default "" (environ w !! "MODEL_ARN")) = Ret model_id ->
  invoke_model w model_id (json_dumps (ChatbotLambda.request_body model_id message))
  = Ret raw ->
  json_loads raw = Ret (JDict fields) ->
  Py.assoc "content" fields = Some (JList (JDict item :: rest)) ->
  Py.assoc "text" item = Some v ->
  ChatbotLambda.fallback_response w message = v.
Proof.
  intros Hid Hcall Hload Hc Ht. unfold ChatbotLambda.fallback_response.
  rewrite (fallback_body_steps _ _ _ _ _ Hid Hcall Hload).
  unfold ChatbotLambda.parse_response, ChatbotLambda.parse_claude.
  rewrite (parse_nova_segment _ _ _ Hc), (first_content_text_segment _ _ _ Hc), Ht.
  destruct (PyStr.contains "nova-premier" model_id); reflexivity.
Qed.

(** X10. In the Nova format, a reply without [content], or with an empty
    [content] list, is answered with its [completion] field when it has
    one. *)
Theorem nova_completion_used (w : World) (message : json) (model_id raw : string)
    (fields : list (string * json)) (v : json) :
  ChatbotLambda.model_id_of_arn (default "" (environ w !! "MODEL_ARN")) = Ret model_id ->
  PyStr.substring_of "nova-premier" model_id ->
  invoke_model w model_id (json_dumps (ChatbotLambda.nova_request message)) = Ret raw ->
  json_loads raw = Ret (JDict fields) ->
  Py.assoc "content" fields = None \/ Py.assoc "content" fields = Some (JList []) ->
  Py.assoc "completion" fields = Some v ->
  ChatbotLambda.fallback_response w message = v.
Proof.
  intros Hid Hnova Hcall Hload Hc Hk. apply contains_spec in Hnova.
  assert (Hreq : ChatbotLambda.request_body model_id message
                 = ChatbotLambda.nova_request message).
  { unfold ChatbotLambda.request_body. rewrite Hnova. reflexivity. }
  rewrite <- Hreq in Hcall. unfold ChatbotLambda.fallback_response.
  rewrite (fallback_body_steps _ _ _ _ _ Hid Hcall Hload).
  unfold ChatbotLambda.parse_response. rewrite Hnova.
  unfold ChatbotLambda.parse_nova, Py.contains, Py.getitem_key.
  destruct Hc as [Hc | Hc]; rewrite Hc, Hk; reflexivity.
Qed.

(** X11. In the Nova format, a reply whose first [content] segment has
    no [text] is not answered from its [completion] field, present or
    not: reading the segment raises [KeyError] and the caller gets the
    apology text. *)
Theorem nova_textless_segment (w : World) (message : json) (model_id raw : string)
    (fields item : list (string * json)) (rest : list json) :
  ChatbotLambda.model_id_of_arn (default "" (environ w !! "MODEL_ARN")) = Ret model_id ->
  PyStr.substring_of "nova-premier" model_id ->
  invoke_model w model_id (json_dumps (ChatbotLambda.nova_request message)) = Ret raw ->
  json_loads raw = Ret (JDict fields) ->
  Py.assoc "content" fields = Some (JList (JDict item :: rest)) ->
  Py.assoc "text" item = None ->
  ChatbotLambda.fallback_response w message
  = JStr ("I apologize, but I'm having trouble processing your request right now. Error: "
          +:+ exn_str (KeyError (JStr "text"))).
Proof.
  intros Hid Hnova Hcall Hload Hc Ht. apply contains_spec in Hnova.
  assert (Hreq : ChatbotLambda.request_body model_id message
                 = ChatbotLambda.nova_request message).
  { unfold ChatbotLambda.request_body. rewrite Hnova. reflexivity. }
  rewrite <- Hreq in Hcall. unfold ChatbotLambda.fallback_response.
  rewrite (fallback_body_steps _ _ _ _ _ Hid Hcall Hload).
  unfold ChatbotLambda.parse_response. rewrite Hnova.
  rewrite (parse_nova_segment _ _ _ Hc), (first_content_text_segment _ _ _ Hc), Ht.
  reflexivity.
Qed.

End Replies.

Lemma fallback_first_segment_witness :
  ChatbotLambda.fallback_response (py:=Samples.runtime)
    (Reference.world [("MODEL_ARN", Reference.claude_id)]
       (Ret Samples.two_segments_reply))
    (JStr "hello")
  = JStr "First.".
Proof.
  apply (fallback_first_segment (py:=Samples.runtime)
           (Reference.world [("MODEL_ARN", Reference.claude_id)]
              (Ret Samples.two_segments_reply))
           (JStr "hello") Reference.claude_id Samples.two_segments_reply
           [("content", JList [JDict [("text", JStr "First.")];
                               JDict [("text", JStr "Second.")]])]
           [("text", JStr "First.")] [JDict [("text", JStr "Second.")]]);
    reflexivity.
Defined.

Lemma nova_completion_used_witness :
  ChatbotLambda.fallback_response (py:=Samples.runtime)
    (Reference.world [("MODEL_ARN", Reference.profile_arn)]
       (Ret Samples.completion_reply))
    (JStr "hello")
  = JStr "From completion.".
Proof.
  apply (nova_completion_used (py:=Samples.runtime)
           (Reference.world [("MODEL_ARN", Reference.profile_arn)]
              (Ret Samples.completion_reply))
           (JStr "hello") ChatbotLambda.nova_model_id Samples.completion_reply
           [("completion", JStr "From completion.")]).
  - reflexivity.
  - apply contains_spec. reflexivity.
  - reflexivity.
  - reflexivity.
  - left. reflexivity.
  - reflexivity.
Defined.

Lemma nova_textless_segment_witness :
  ChatbotLambda.fallback_response (py:=Samples.runtime)
    (Reference.world [("MODEL_ARN", Reference.profile_arn)]
       (Ret Samples.textless_reply))
    (JStr "hello")
  = JStr "I apologize, but I'm having trouble processing your request right now. Error: 'text'".
Proof.
  apply (nova_textless_segment (py:=Samples.runtime)
           (Reference.world [("MODEL_ARN", Reference.profile_arn)]
              (Ret Samples.textless_reply))
           (JStr "hello") ChatbotLambda.nova_model_id Samples.textless_reply
           [("content", JList [JDict []]); ("completion", JStr "From completion.")]
           [] []).
  - reflexivity.
  - apply contains_spec. reflexivity.
  - reflexivity.
  - reflexivity.
  - reflexivity.
  - reflexivity.
Defined.

(** ** chatbot-lambda: the knowledge-base path and the handler *)

Section KnowledgeBasePath.
Context {py : Builtins}.

(** The [try] block of [process_message] when a knowledge base is
    configured. *)
Lemma process_body_knowledge_base (w : World) (message session_id : json)
    (kb : string) :
  environ w !! "KNOWLEDGE_BASE_ID" = Some kb -> kb <> "" ->
  ChatbotLambda.process_body w message session_id
  = (response ← retrieve_and_generate w (ChatbotLambda.rag_input message)
                  (ChatbotLambda.rag_configuration kb
                     (default "" (environ w !! "MODEL_ARN")));
     output ← Py.getitem_key response "output";
     Py.getitem_key output "text").
Proof.
  intros Hkb Hne. unfold ChatbotLambda.process_body.
  destruct (model_id_of_arn_returns (default "" (environ w !! "MODEL_ARN")))
    as [model_id ->].
  cbn [mbind outcome_bind]. rewrite Hkb. cbn [default from_option id].
  apply String.eqb_neq in Hne. rewrite Hne. reflexivity.
Qed.

(** X12. With a knowledge base configured, the query is sent with the
    configured identifier and the model ARN as configured (not the
    derived model identifier); when the reply holds [output.text], that
    value is the answer, and the direct model endpoint plays no part. *)
Theorem knowledge_base_answer (w : World) (message session_id : json) (kb : string)
    (fields output : list (string * json)) (v : json) :
  environ w !! "KNOWLEDGE_BASE_ID" = Some kb -> kb <> "" ->
  retrieve_and_generate w (ChatbotLambda.rag_input message)
    (ChatbotLambda.rag_configuration kb (default "" (environ w !! "MODEL_ARN")))
  = Ret (JDict fields) ->
  Py.assoc "output" fields = Some (JDict output) ->
  Py.assoc "text" output = Some v ->
  ChatbotLambda.process_message w message session_id = v.
Proof.
  intros Hkb Hne Hcall Hout Htext. unfold ChatbotLambda.process_message.
  rewrite (process_body_knowledge_base _ _ _ _ Hkb Hne), Hcall.
  cbn [mbind outcome_bind Py.getitem_key]. rewrite Hout.
  cbn [mbind outcome_bind Py.getitem_key]. rewrite Htext. reflexivity.
Qed.

(** X13. With a knowledge base configured, a query that raises, or a
    reply without [output], or an [output] without [text], is answered by
    the direct model path: the result is that of [fallback_response]. *)
Theorem knowledge_base_failure (w : World) (message session_id : json) (kb : string) :
  environ w !! "KNOWLEDGE_BASE_ID" = Some kb -> kb <> "" ->
  (forall e,
     retrieve_and_generate w (ChatbotLambda.rag_input message)
       (ChatbotLambda.rag_configuration kb (default "" (environ w !! "MODEL_ARN")))
     = Raise e ->
     ChatbotLambda.process_message w message session_id
     = ChatbotLambda.fallback_response w message) /\
  (forall fields,
     retrieve_and_generate w (ChatbotLambda.rag_input message)
       (ChatbotLambda.rag_configuration kb (default "" (environ w !! "MODEL_ARN")))
     = Ret (JDict fields) ->
     Py.assoc "output" fields = None \/
     (exists output, Py.assoc "output" fields = Some (JDict output) /\
                     Py.assoc "text" output = None) ->
     ChatbotLambda.process_message w message session_id
     = ChatbotLambda.fallback_response w message).
Proof.
  intros Hkb Hne. unfold ChatbotLambda.process_message.
  rewrite (process_body_knowledge_base _ _ _ _ Hkb Hne). split.
  - intros e ->. reflexivity.
  - intros fields -> [Hout | (output & Hout & Htext)];
      cbn [mbind outcome_bind Py.getitem_key]; rewrite Hout; [reflexivity|].
    cbn [mbind outcome_bind Py.getitem_key]. rewrite Htext. reflexivity.
Qed.

(** X14. The handler answers with status 200 and the four CORS headers
    exactly when the body of the event decodes to a JSON object. A body
    that is not text, that does not decode, or that decodes to anything
    but an object yields status 500, two headers and a body that holds
    only the text of the error. *)
Theorem handler_status (w : World) (event : gmap string json) :
  (forall fields,
     py_json_loads (default (JStr "{}") (event !! "body")) = Ret (JDict fields) ->
     ChatbotLambda.statusCode (ChatbotLambda.handler w event) = 200 /\
     ChatbotLambda.headers (ChatbotLambda.handler w event) = ChatbotLambda.ok_headers) /\
  (forall e,
     py_json_loads (default (JStr "{}") (event !! "body")) = Raise e ->
     ChatbotLambda.handler w event
     = {| ChatbotLambda.statusCode := 500;
          ChatbotLambda.headers := ChatbotLambda.error_headers;
          ChatbotLambda.body := json_dumps (JDict [("error", JStr (exn_str e))]) |}) /\
  (forall v,
     py_json_loads (default (JStr "{}") (event !! "body")) = Ret v ->
     (forall fields, v <> JDict fields) ->
     ChatbotLambda.handler w event
     = {| ChatbotLambda.statusCode := 500;
          ChatbotLambda.headers := ChatbotLambda.error_headers;
          ChatbotLambda.body :=
            json_dumps (JDict [("error", JStr (exn_str AttributeError))]) |}) /\
  (forall v, event !! "body" = Some v -> (forall s, v <> JStr s) ->
     ChatbotLambda.statusCode (ChatbotLambda.handler w event) = 500).
Proof.
  split; [|split; [|split]].
  - intros fields Hbody.
    destruct (handler_object_body w event fields Hbody) as [um ->]. split; reflexivity.
  - intros e Hbody. unfold ChatbotLambda.handler, ChatbotLambda.handler_body.
    rewrite Hbody. reflexivity.
  - intros v Hbody Hv. unfold ChatbotLambda.handler, ChatbotLambda.handler_body.
    rewrite Hbody. destruct v; try reflexivity. destruct (Hv fields eq_refl).
  - intros v Hev Hv. unfold ChatbotLambda.handler, ChatbotLambda.handler_body.
    rewrite Hev. destruct v; try reflexivity. destruct (Hv s eq_refl).
Qed.

(** X15. Where the question is taken from. When the [message] of the
    body is present and truthy it is the question, whatever the event
    holds under [messages]. When it is missing or falsy (empty text, for
    one) and the event has a [messages] key, the value under that key is
    the question instead. *)
Theorem handler_question (w : World) (event : gmap string json)
    (fields : list (string * json)) :
  py_json_loads (default (JStr "{}") (event !! "body")) = Ret (JDict fields) ->
  let session := default (JStr "default") (Py.assoc "session_id" fields) in
  let answer_to question :=
    {| ChatbotLambda.statusCode := 200;
       ChatbotLambda.headers := ChatbotLambda.ok_headers;
       ChatbotLambda.body :=
         json_dumps
           (JDict [("response", ChatbotLambda.process_message w question session);
                   ("session_id", session)]) |} in
  (forall m, Py.assoc "message" fields = Some m -> Py.truthy m = true ->
     ChatbotLambda.handler w event = answer_to m) /\
  (forall alt, event !! "messages" = Some alt ->
     Py.truthy (default (JStr "") (Py.assoc "message" fields)) = false ->
     ChatbotLambda.handler w event = answer_to alt) /\
  (event !! "messages" = None ->
     ChatbotLambda.handler w event
     = answer_to (default (JStr "") (Py.assoc "message" fields))).
Proof.
  intros Hbody session answer_to. subst session answer_to.
  unfold ChatbotLambda.handler, ChatbotLambda.handler_body.
  rewrite Hbody. cbn [mbind outcome_bind Py.get try_except].
  split; [|split].
  - intros m Hm Ht. rewrite Hm. cbn [default from_option id]. rewrite Ht. reflexivity.
  - intros alt Halt Hf. rewrite Hf, Halt. reflexivity.
  - intros Hnone. rewrite Hnone, andb_false_r. reflexivity.
Qed.

End KnowledgeBasePath.

Lemma knowledge_base_answer_witness :
  ChatbotLambda.process_message (py:=Samples.runtime)
    (Samples.kb_world [("KNOWLEDGE_BASE_ID", "KB12345"); ("MODEL_ARN", Reference.claude_id)]
       (Ret "Slicks are not allowed.") (Raise (OtherError "Read timed out")))
    (JStr "hello") (JStr "default")
  = JStr "Slicks are not allowed.".
Proof.
  apply (knowledge_base_answer (py:=Samples.runtime)
           (Samples.kb_world
              [("KNOWLEDGE_BASE_ID", "KB12345"); ("MODEL_ARN", Reference.claude_id)]
              (Ret "Slicks are not allowed.") (Raise (OtherError "Read timed out")))
           (JStr "hello") (JStr "default") "KB12345"
           [("output", JDict [("text", JStr "Slicks are not allowed.")])]
           [("text", JStr "Slicks are not allowed.")]).
  - reflexivity.
  - discriminate.
  - reflexivity.
  - reflexivity.
  - reflexivity.
Defined.

Lemma knowledge_base_failure_witness :
  ChatbotLambda.process_message (py:=Samples.runtime)
    (Samples.kb_world [("KNOWLEDGE_BASE_ID", "KB12345"); ("MODEL_ARN", Reference.claude_id)]
       (Raise (OtherError "ThrottlingException"))
       (Ret (Reference.reply_text "Slicks are not allowed.")))
    (JStr "hello") (JStr "default")
  = ChatbotLambda.fallback_response (py:=Samples.runtime)
      (Samples.kb_world
         [("KNOWLEDGE_BASE_ID", "KB12345"); ("MODEL_ARN", Reference.claude_id)]
         (Raise (OtherError "ThrottlingException"))
         (Ret (Reference.reply_text "Slicks are not allowed.")))
      (JStr "hello").
Proof.
  assert (Hkb : environ
                  (Samples.kb_world
                     [("KNOWLEDGE_BASE_ID", "KB12345"); ("MODEL_ARN", Reference.claude_id)]
                     (Raise (OtherError "ThrottlingException"))
                     (Ret (Reference.reply_text "Slicks are not allowed.")))
                  !! "KNOWLEDGE_BASE_ID" = Some "KB12345").
  { reflexivity. }
  assert (Hne : "KB12345" <> "") by discriminate.
  destruct (knowledge_base_failure (py:=Samples.runtime) _ (JStr "hello") (JStr "default")
              "KB12345" Hkb Hne) as (Hraise & _).
  apply (Hraise (OtherError "ThrottlingException")). reflexivity.
Defined.

(** The knowledge base is down and the direct model answers. *)
Example knowledge_base_failure_run :
  ChatbotLambda.process_message (py:=Samples.runtime)
    (Samples.kb_world [("KNOWLEDGE_BASE_ID", "KB12345"); ("MODEL_ARN", Reference.claude_id)]
       (Raise (OtherError "ThrottlingException"))
       (Ret (Reference.reply_text "Slicks are not allowed.")))
    (JStr "hello") (JStr "default")
  = JStr "Slicks are not allowed.".
Proof. vm_compute. reflexivity. Qed.

Lemma handler_status_witness :
  ChatbotLambda.statusCode
    (ChatbotLambda.handler (py:=Samples.runtime)
       (Reference.world [("MODEL_ARN", Reference.claude_id)]
          (Ret (Reference.reply_text "Slicks are not allowed.")))
       {[ "body" := JStr Reference.session_request ]}) = 200 /\
  ChatbotLambda.handler (py:=Samples.runtime)
    (Reference.world [("MODEL_ARN", Reference.claude_id)]
       (Ret (Reference.reply_text "Slicks are not allowed.")))
    {[ "body" := JStr "[]" ]}
  = {| ChatbotLambda.statusCode := 500;
       ChatbotLambda.headers := ChatbotLambda.error_headers;
       ChatbotLambda.body :=
         json_dumps (Builtins:=Samples.runtime)
           (JDict [("error", JStr (exn_str (Builtins:=Samples.runtime) AttributeError))]) |} /\
  ChatbotLambda.statusCode
    (ChatbotLambda.handler (py:=Samples.runtime)
       (Reference.world [("MODEL_ARN", Reference.claude_id)]
          (Ret (Reference.reply_text "Slicks are not allowed.")))
       {[ "body" := JNull ]}) = 500.
Proof.
  split; [|split].
  - assert (Hbody : py_json_loads (py:=Samples.runtime)
                      (default (JStr "{}")
                         (({[ "body" := JStr Reference.session_request ]}
                           : gmap string json) !! "body"))
                    = Ret (JDict [("message", JStr "hello");
                                  ("session_id", JStr "abc-123")])).
    { vm_compute. reflexivity. }
    destruct (handler_status (py:=Samples.runtime)
                (Reference.world [("MODEL_ARN", Reference.claude_id)]
                   (Ret (Reference.reply_text "Slicks are not allowed.")))
                {[ "body" := JStr Reference.session_request ]}) as (Hok & _).
    exact (proj1 (Hok _ Hbody)).
  - assert (Hbody : py_json_loads (py:=Samples.runtime)
                      (default (JStr "{}")
                         (({[ "body" := JStr "[]" ]} : gmap string json) !! "body"))
                    = Ret (JList [])).
    { vm_compute. reflexivity. }
    destruct (handler_status (py:=Samples.runtime)
                (Reference.world [("MODEL_ARN", Reference.claude_id)]
                   (Ret (Reference.reply_text "Slicks are not allowed.")))
                {[ "body" := JStr "[]" ]}) as (_ & _ & Hshape & _).
    apply (Hshape _ Hbody). discriminate.
  - destruct (handler_status (py:=Samples.runtime)
                (Reference.world [("MODEL_ARN", Reference.claude_id)]
                   (Ret (Reference.reply_text "Slicks are not allowed.")))
                {[ "body" := JNull ]}) as (_ & _ & _ & Hnull).
    apply (Hnull JNull); [reflexivity | discriminate].
Defined.

Lemma handler_question_witness :
  ChatbotLambda.handler (py:=Samples.runtime)
    (Reference.world [("MODEL_ARN", Reference.claude_id)]
       (Ret (Reference.reply_text "Slicks are not allowed.")))
    {[ "body" := JStr "{}"; "messages" := JStr "Are slicks allowed?" ]}
  = {| ChatbotLambda.statusCode := 200;
       ChatbotLambda.headers := ChatbotLambda.ok_headers;
       ChatbotLambda.body :=
         json_dumps (Builtins:=Samples.runtime)
           (JDict [("response",
                    ChatbotLambda.process_message (py:=Samples.runtime)
                      (Reference.world [("MODEL_ARN", Reference.claude_id)]
                         (Ret (Reference.reply_text "Slicks are not allowed.")))
                      (JStr "Are slicks allowed?") (JStr "default"));
                   ("session_id", JStr "default")]) |}.
Proof.
  assert (Hbody : py_json_loads (py:=Samples.runtime)
                    (default (JStr "{}")
                       (({[ "body" := JStr "{}"; "messages" := JStr "Are slicks allowed?" ]}
                         : gmap string json) !! "body"))
                  = Ret (JDict [])).
  { vm_compute. reflexivity. }
  destruct (handler_question (py:=Samples.runtime)
              (Reference.world [("MODEL_ARN", Reference.claude_id)]
                 (Ret (Reference.reply_text "Slicks are not allowed.")))
              {[ "body" := JStr "{}"; "messages" := JStr "Are slicks allowed?" ]}
              [] Hbody) as (_ & Halt & _).
  apply (Halt (JStr "Are slicks allowed?")); reflexivity.
Defined.

(** ** knowledge-base-lambda: the management handler *)

Section KnowledgeBaseManagement.
Context {py : Builtins}.

(** The handler on a request whose body decodes to a JSON object:
    status 200 with the serialised response, or status 500 when
    [json.dumps] refuses the response. *)
Lemma kb_handler_object (b : KnowledgeBaseLambda.Bedrock) (event : gmap string json)
    (fields : list (string * json)) :
  py_json_loads (default (JStr "{}") (event !! "body")) = Ret (JDict fields) ->
  KnowledgeBaseLambda.handler b event
  = match KnowledgeBaseLambda.dumps
            (KnowledgeBaseLambda.dispatch b (JDict fields)
               (default (JStr "") (Py.assoc "operation" fields))) with
    | Ret dumped =>
        {| ChatbotLambda.statusCode := 200;
           ChatbotLambda.headers := ChatbotLambda.ok_headers;
           ChatbotLambda.body := dumped |}
    | Raise e =>
        {| ChatbotLambda.statusCode := 500;
           ChatbotLambda.headers := ChatbotLambda.error_headers;
           ChatbotLambda.body := json_dumps (JDict [("error", JStr (exn_str e))]) |}
    end.
Proof.
  intros Hbody. unfold KnowledgeBaseLambda.handler, KnowledgeBaseLambda.handler_body.
  rewrite Hbody. cbn [mbind outcome_bind Py.get].
  destruct (KnowledgeBaseLambda.dumps _); reflexivity.
Qed.

Lemma eq_str_true (v : json) (s : string) :
  KnowledgeBaseLambda.eq_str v s = true <-> v = JStr s.
Proof.
  destruct v; cbn; try (split; [discriminate | intros [=]]).
  rewrite String.eqb_eq. split; [intros ->; reflexivity | intros [= ->]; reflexivity].
Qed.

Lemma eq_str_false (v : json) (s : string) :
  KnowledgeBaseLambda.eq_str v s = false <-> v <> JStr s.
Proof.
  rewrite <- eq_str_true. destruct (KnowledgeBaseLambda.eq_str v s);
    split; intros; congruence.
Qed.

(** A value [json.dumps] accepts has only such values under its
    keys. *)
Lemma to_json_getitem (reply v : KnowledgeBaseLambda.pyobj) (k : string) :
  is_Some (KnowledgeBaseLambda.to_json reply) ->
  KnowledgeBaseLambda.getitem_key reply k = Ret v ->
  is_Some (KnowledgeBaseLambda.to_json v).
Proof.
  destruct reply as [j | d | items | fields]; cbn; try discriminate.
  - intros _. destruct (Py.getitem_key j k); cbn; [|discriminate].
    intros [= <-]. eauto.
  - intros [j Hj]. apply fmap_Some in Hj as (js & Hjs & _).
    apply mapM_Some in Hjs. revert js Hjs.
    induction fields as [|[k' x] fields IH]; intros js Hjs; cbn; [discriminate|].
    inversion Hjs as [|? y ? ys Hx Hrest]; subst.
    destruct (String.eqb k k').
    + intros [= <-]. cbn in Hx. destruct (KnowledgeBaseLambda.to_json x); [eauto|].
      discriminate.
    + apply (IH ys Hrest).
Qed.

(** X16. The management handler answers with status 200 whenever the
    body of the event decodes to a JSON object, whichever operation is
    asked and whatever the Bedrock client does, its replies taken as
    values of JSON shape (only the reply to [list_knowledge_bases] is
    serialised whole, so only there does the proviso matter); status 500,
    with the text of the error as the whole body, is the answer to a body
    that is not text, does not decode, or decodes to something other than
    an object. *)
Theorem kb_handler_status (b : KnowledgeBaseLambda.Bedrock) (event : gmap string json) :
  (forall fields,
     py_json_loads (default (JStr "{}") (event !! "body")) = Ret (JDict fields) ->
     Py.assoc "operation" fields <> Some (JStr "list_knowledge_bases") \/
     (forall reply, KnowledgeBaseLambda.list_call b = Ret reply ->
                    is_Some (KnowledgeBaseLambda.to_json reply)) ->
     ChatbotLambda.statusCode (KnowledgeBaseLambda.handler b event) = 200 /\
     ChatbotLambda.headers (KnowledgeBaseLambda.handler b event)
     = ChatbotLambda.ok_headers) /\
  (forall e,
     py_json_loads (default (JStr "{}") (event !! "body")) = Raise e ->
     KnowledgeBaseLambda.handler b event
     = {| ChatbotLambda.statusCode := 500;
          ChatbotLambda.headers := ChatbotLambda.error_headers;
          ChatbotLambda.body := json_dumps (JDict [("error", JStr (exn_str e))]) |}) /\
  (forall v,
     py_json_loads (default (JStr "{}") (event !! "body")) = Ret v ->
     (forall fields, v <> JDict fields) ->
     KnowledgeBaseLambda.handler b event
     = {| ChatbotLambda.statusCode := 500;
          ChatbotLambda.headers := ChatbotLambda.error_headers;
          ChatbotLambda.body :=
            json_dumps (JDict [("error", JStr (exn_str AttributeError))]) |}).
Proof.
  split; [|split].
  - intros fields Hbody Hshape. rewrite (kb_handler_object _ _ _ Hbody).
    assert (Hdumps : exists dumped,
               KnowledgeBaseLambda.dumps
                 (KnowledgeBaseLambda.dispatch b (JDict fields)
                    (default (JStr "") (Py.assoc "operation" fields)))
               = Ret dumped).
    { unfold KnowledgeBaseLambda.dispatch.
      destruct (KnowledgeBaseLambda.eq_str _ "create_knowledge_base"); [cbn; eauto|].
      destruct (KnowledgeBaseLambda.eq_str _ "add_document"); [cbn; eauto|].
      destruct (KnowledgeBaseLambda.eq_str _ "list_knowledge_bases") eqn:Hop;
        [|cbn; eauto].
      apply eq_str_true in Hop.
      assert (Hlist : Py.assoc "operation" fields = Some (JStr "list_knowledge_bases")).
      { destruct (Py.assoc "operation" fields); cbn in Hop; [congruence | discriminate]. }
      destruct Hshape as [Hne | Hshape]; [contradiction|].
      unfold KnowledgeBaseLambda.list_knowledge_bases.
      destruct (KnowledgeBaseLambda.list_call b) as [reply|e] eqn:Hcall; [|cbn; eauto].
      cbn [mbind outcome_bind].
      destruct (KnowledgeBaseLambda.getitem_key reply "knowledgeBaseSummaries")
        as [summaries|e] eqn:Hget; [|cbn; eauto].
      destruct (to_json_getitem _ _ _ (Hshape reply eq_refl) Hget) as [j Hj].
      cbn. unfold KnowledgeBaseLambda.dumps. cbn. rewrite Hj. cbn. eauto. }
    destruct Hdumps as [dumped ->]. split; reflexivity.
  - intros e Hbody. unfold KnowledgeBaseLambda.handler, KnowledgeBaseLambda.handler_body.
    rewrite Hbody. reflexivity.
  - intros v Hbody Hv.
    unfold KnowledgeBaseLambda.handler, KnowledgeBaseLambda.handler_body.
    rewrite Hbody. destruct v; try reflexivity. destruct (Hv fields eq_refl).
Qed.

(** X17. A request without [operation], or whose [operation] is not one
    of the three names (compared exactly, a value that is not text
    included), is answered with status 200 and the body
    [{"error": "Invalid operation"}]; the Bedrock client is not
    called. *)
Theorem kb_invalid_operation (b : KnowledgeBaseLambda.Bedrock)
    (event : gmap string json) (fields : list (string * json)) :
  py_json_loads (default (JStr "{}") (event !! "body")) = Ret (JDict fields) ->
  Py.assoc "operation" fields = None \/
  (exists op, Py.assoc "operation" fields = Some op /\
              op <> JStr "create_knowledge_base" /\
              op <> JStr "add_document" /\
              op <> JStr "list_knowledge_bases") ->
  KnowledgeBaseLambda.handler b event
  = {| ChatbotLambda.statusCode := 200;
       ChatbotLambda.headers := ChatbotLambda.ok_headers;
       ChatbotLambda.body :=
         json_dumps (JDict [("error", JStr "Invalid operation")]) |}.
Proof.
  intros Hbody Hop. rewrite (kb_handler_object _ _ _ Hbody).
  unfold KnowledgeBaseLambda.dispatch.
  destruct Hop as [-> | (op & -> & H1 & H2 & H3)]; [reflexivity|].
  cbn [default from_option id].
  apply eq_str_false in H1, H2, H3. rewrite H1, H2, H3. reflexivity.
Qed.

(** X18. [add_document] stores nothing: whatever else the body holds
    and whatever the Bedrock client would do, the request is answered
    with status 200 and the same success message. *)
Theorem kb_add_document (b : KnowledgeBaseLambda.Bedrock) (event : gmap string json)
    (fields : list (string * json)) :
  py_json_loads (default (JStr "{}") (event !! "body")) = Ret (JDict fields) ->
  Py.assoc "operation" fields = Some (JStr "add_document") ->
  KnowledgeBaseLambda.handler b event
  = {| ChatbotLambda.statusCode := 200;
       ChatbotLambda.headers := ChatbotLambda.ok_headers;
       ChatbotLambda.body :=
         json_dumps (JDict [("message", JStr "Document added successfully")]) |}.
Proof.
  intros Hbody Hop. rewrite (kb_handler_object _ _ _ Hbody), Hop. reflexivity.
Qed.

(** The [try] block of [create_knowledge_base] on a JSON object. *)
Lemma create_body_object (b : KnowledgeBaseLambda.Bedrock)
    (fields : list (string * json)) :
  KnowledgeBaseLambda.create_body b (JDict fields)
  = (response ← KnowledgeBaseLambda.create_call b
       (KnowledgeBaseLambda.create_arguments
          (default (JStr "Spec3ChatbotKB") (Py.assoc "name" fields))
          (default (JStr "Knowledge base for Spec3 Chatbot")
                   (Py.assoc "description" fields))
          (default "" (KnowledgeBaseLambda.kb_environ b !! "BEDROCK_ROLE_ARN")));
     kb ← Py.getitem_key response "knowledgeBase";
     kb_id ← Py.getitem_key kb "knowledgeBaseId";
     Ret (JDict [("knowledge_base_id", kb_id)])).
Proof. reflexivity. Qed.

(** X19. Creating a knowledge base: the client is called with the
    [name] and [description] of the request, or with [Spec3ChatbotKB] and
    [Knowledge base for Spec3 Chatbot] where the request has none, and
    with the role ARN of the environment, empty when unset. When the
    reply holds [knowledgeBase.knowledgeBaseId], the answer is that
    identifier under [knowledge_base_id]. *)
Theorem kb_create_success (b : KnowledgeBaseLambda.Bedrock) (event : gmap string json)
    (fields reply kb : list (string * json)) (kb_id : json) :
  py_json_loads (default (JStr "{}") (event !! "body")) = Ret (JDict fields) ->
  Py.assoc "operation" fields = Some (JStr "create_knowledge_base") ->
  KnowledgeBaseLambda.create_call b
    (KnowledgeBaseLambda.create_arguments
       (default (JStr "Spec3ChatbotKB") (Py.assoc "name" fields))
       (default (JStr "Knowledge base for Spec3 Chatbot") (Py.assoc "description" fields))
       (default "" (KnowledgeBaseLambda.kb_environ b !! "BEDROCK_ROLE_ARN")))
  = Ret (JDict reply) ->
  Py.assoc "knowledgeBase" reply = Some (JDict kb) ->
  Py.assoc "knowledgeBaseId" kb = Some kb_id ->
  KnowledgeBaseLambda.handler b event
  = {| ChatbotLambda.statusCode := 200;
       ChatbotLambda.headers := ChatbotLambda.ok_headers;
       ChatbotLambda.body := json_dumps (JDict [("knowledge_base_id", kb_id)]) |}.
Proof.
  intros Hbody Hop Hcall Hkb Hid. rewrite (kb_handler_object _ _ _ Hbody), Hop.
  unfold KnowledgeBaseLambda.dispatch. cbn [default from_option id].
  replace (KnowledgeBaseLambda.eq_str (JStr "create_knowledge_base")
             "create_knowledge_base") with true by reflexivity.
  unfold KnowledgeBaseLambda.create_knowledge_base.
  rewrite create_body_object, Hcall. cbn [mbind outcome_bind Py.getitem_key].
  rewrite Hkb. cbn [mbind outcome_bind Py.getitem_key]. rewrite Hid. reflexivity.
Qed.

(** X20. When the Bedrock call of [create_knowledge_base] raises, the
    request is still answered with status 200; the body holds
    [Failed to create knowledge base: ] followed by the text of the error
    under [error]. *)
Theorem kb_create_failure (b : KnowledgeBaseLambda.Bedrock) (event : gmap string json)
    (fields : list (string * json)) (e : exn) :
  py_json_loads (default (JStr "{}") (event !! "body")) = Ret (JDict fields) ->
  Py.assoc "operation" fields = Some (JStr "create_knowledge_base") ->
  KnowledgeBaseLambda.create_call b
    (KnowledgeBaseLambda.create_arguments
       (default (JStr "Spec3ChatbotKB") (Py.assoc "name" fields))
       (default (JStr "Knowledge base for Spec3 Chatbot") (Py.assoc "description" fields))
       (default "" (KnowledgeBaseLambda.kb_environ b !! "BEDROCK_ROLE_ARN")))
  = Raise e ->
  KnowledgeBaseLambda.handler b event
  = {| ChatbotLambda.statusCode := 200;
       ChatbotLambda.headers := ChatbotLambda.ok_headers;
       ChatbotLambda.body :=
         json_dumps
           (JDict [("error",
                    JStr ("Failed to create knowledge base: " +:+ exn_str e))]) |}.
Proof.
  intros Hbody Hop Hcall. rewrite (kb_handler_object _ _ _ Hbody), Hop.
  unfold KnowledgeBaseLambda.dispatch. cbn [default from_option id].
  replace (KnowledgeBaseLambda.eq_str (JStr "create_knowledge_base")
             "create_knowledge_base") with true by reflexivity.
  unfold KnowledgeBaseLambda.create_knowledge_base.
  rewrite create_body_object, Hcall. reflexivity.
Qed.

(** X21. Listing knowledge bases. When the reply holds
    [knowledgeBaseSummaries] and [json.dumps] accepts them, they are
    returned as they are under [knowledge_bases] with status 200. When
    they hold a value [json.dumps] refuses, a [datetime] for one, the
    serialisation raises inside the handler's [try] and the answer is
    status 500 with the text of that error. A call that raises, or a
    reply from which the key cannot be read, gives status 200 with
    [Failed to list knowledge bases: ] and the text of the error under
    [error]. *)
Theorem kb_list (b : KnowledgeBaseLambda.Bedrock) (event : gmap string json)
    (fields : list (string * json)) :
  py_json_loads (default (JStr "{}") (event !! "body")) = Ret (JDict fields) ->
  Py.assoc "operation" fields = Some (JStr "list_knowledge_bases") ->
  (forall reply summaries j,
     KnowledgeBaseLambda.list_call b = Ret reply ->
     KnowledgeBaseLambda.getitem_key reply "knowledgeBaseSummaries" = Ret summaries ->
     KnowledgeBaseLambda.to_json summaries = Some j ->
     KnowledgeBaseLambda.handler b event
     = {| ChatbotLambda.statusCode := 200;
          ChatbotLambda.headers := ChatbotLambda.ok_headers;
          ChatbotLambda.body := json_dumps (JDict [("knowledge_bases", j)]) |}) /\
  (forall reply summaries,
     KnowledgeBaseLambda.list_call b = Ret reply ->
     KnowledgeBaseLambda.getitem_key reply "knowledgeBaseSummaries" = Ret summaries ->
     KnowledgeBaseLambda.to_json summaries = None ->
     KnowledgeBaseLambda.handler b event
     = {| ChatbotLambda.statusCode := 500;
          ChatbotLambda.headers := ChatbotLambda.error_headers;
          ChatbotLambda.body :=
            json_dumps (JDict [("error", JStr (exn_str TypeError))]) |}) /\
  (forall e,
     KnowledgeBaseLambda.list_call b = Raise e ->
     KnowledgeBaseLambda.handler b event
     = {| ChatbotLambda.statusCode := 200;
          ChatbotLambda.headers := ChatbotLambda.ok_headers;
          ChatbotLambda.body :=
            json_dumps
              (JDict [("error",
                       JStr ("Failed to list knowledge bases: " +:+ exn_str e))]) |}) /\
  (forall reply e,
     KnowledgeBaseLambda.list_call b = Ret reply ->
     KnowledgeBaseLambda.getitem_key reply "knowledgeBaseSummaries" = Raise e ->
     KnowledgeBaseLambda.handler b event
     = {| ChatbotLambda.statusCode := 200;
          ChatbotLambda.headers := ChatbotLambda.ok_headers;
          ChatbotLambda.body :=
            json_dumps
              (JDict [("error",
                       JStr ("Failed to list knowledge bases: " +:+ exn_str e))]) |}).
Proof.
  intros Hbody Hop. rewrite (kb_handler_object _ _ _ Hbody), Hop.
  unfold KnowledgeBaseLambda.dispatch. cbn [default from_option id].
  replace (KnowledgeBaseLambda.eq_str (JStr "list_knowledge_bases")
             "create_knowledge_base") with false by reflexivity.
  replace (KnowledgeBaseLambda.eq_str (JStr "list_knowledge_bases") "add_document")
    with false by reflexivity.
  replace (KnowledgeBaseLambda.eq_str (JStr "list_knowledge_bases")
             "list_knowledge_bases") with true by reflexivity.
  unfold KnowledgeBaseLambda.list_knowledge_bases, KnowledgeBaseLambda.dumps.
  split; [|split; [|split]].
  - intros reply summaries j -> Hget Hj. cbn [mbind outcome_bind]. rewrite Hget.
    cbn. rewrite Hj. reflexivity.
  - intros reply summaries -> Hget Hj. cbn [mbind outcome_bind]. rewrite Hget.
    cbn. rewrite Hj. reflexivity.
  - intros e ->. reflexivity.
  - intros reply e -> Hget. cbn [mbind outcome_bind]. rewrite Hget. reflexivity.
Qed.

End KnowledgeBaseManagement.

Lemma kb_handler_status_witness :
  ChatbotLambda.statusCode
    (KnowledgeBaseLambda.handler (py:=Samples.runtime)
       (Samples.bedrock [] (Raise (OtherError "AccessDeniedException"))
          (Raise (OtherError "AccessDeniedException")))
       {[ "body" := JStr (Samples.operation_text "create_knowledge_base") ]}) = 200 /\
  KnowledgeBaseLambda.handler (py:=Samples.runtime)
    (Samples.bedrock [] (Raise (OtherError "AccessDeniedException"))
       (Raise (OtherError "AccessDeniedException")))
    {[ "body" := JStr "[]" ]}
  = {| ChatbotLambda.statusCode := 500;
       ChatbotLambda.headers := ChatbotLambda.error_headers;
       ChatbotLambda.body :=
         json_dumps (Builtins:=Samples.runtime)
           (JDict [("error", JStr (exn_str (Builtins:=Samples.runtime) AttributeError))]) |}.
Proof.
  split.
  - assert (Hbody : py_json_loads (py:=Samples.runtime)
                      (default (JStr "{}")
                         (({[ "body" := JStr (Samples.operation_text "create_knowledge_base") ]}
                           : gmap string json) !! "body"))
                    = Ret (JDict [("operation", JStr "create_knowledge_base")])).
    { vm_compute. reflexivity. }
    destruct (kb_handler_status (py:=Samples.runtime)
                (Samples.bedrock [] (Raise (OtherError "AccessDeniedException"))
                   (Raise (OtherError "AccessDeniedException")))
                {[ "body" := JStr (Samples.operation_text "create_knowledge_base") ]})
      as (Hok & _).
    apply (Hok _ Hbody). left. discriminate.
  - assert (Hbody : py_json_loads (py:=Samples.runtime)
                      (default (JStr "{}")
                         (({[ "body" := JStr "[]" ]} : gmap string json) !! "body"))
                    = Ret (JList [])).
    { vm_compute. reflexivity. }
    destruct (kb_handler_status (py:=Samples.runtime)
                (Samples.bedrock [] (Raise (OtherError "AccessDeniedException"))
                   (Raise (OtherError "AccessDeniedException")))
                {[ "body" := JStr "[]" ]}) as (_ & _ & Hshape).
    apply (Hshape _ Hbody). discriminate.
Defined.

Lemma kb_invalid_operation_witness :
  KnowledgeBaseLambda.handler (py:=Samples.runtime)
    (Samples.bedrock [] (Raise (OtherError "AccessDeniedException"))
       (Raise (OtherError "AccessDeniedException")))
    {[ "body" := JStr (Samples.operation_text "delete_knowledge_base") ]}
  = {| ChatbotLambda.statusCode := 200;
       ChatbotLambda.headers := ChatbotLambda.ok_headers;
       ChatbotLambda.body :=
         json_dumps (Builtins:=Samples.runtime)
           (JDict [("error", JStr "Invalid operation")]) |} /\
  KnowledgeBaseLambda.handler (py:=Samples.runtime)
    (Samples.bedrock [] (Raise (OtherError "AccessDeniedException"))
       (Raise (OtherError "AccessDeniedException")))
    ∅
  = {| ChatbotLambda.statusCode := 200;
       ChatbotLambda.headers := ChatbotLambda.ok_headers;
       ChatbotLambda.body :=
         json_dumps (Builtins:=Samples.runtime)
           (JDict [("error", JStr "Invalid operation")]) |}.
Proof.
  split.
  - assert (Hbody : py_json_loads (py:=Samples.runtime)
                      (default (JStr "{}")
                         (({[ "body" := JStr (Samples.operation_text "delete_knowledge_base") ]}
                           : gmap string json) !! "body"))
                    = Ret (JDict [("operation", JStr "delete_knowledge_base")])).
    { vm_compute. reflexivity. }
    apply (kb_invalid_operation (py:=Samples.runtime) _ _ _ Hbody).
    right. exists (JStr "delete_knowledge_base").
    split; [reflexivity|]. repeat split; discriminate.
  - assert (Hbody : py_json_loads (py:=Samples.runtime)
                      (default (JStr "{}") ((∅ : gmap string json) !! "body"))
                    = Ret (JDict [])).
    { vm_compute. reflexivity. }
    apply (kb_invalid_operation (py:=Samples.runtime) _ _ _ Hbody).
    left. reflexivity.
Defined.

Lemma kb_add_document_witness :
  KnowledgeBaseLambda.handler (py:=Samples.runtime)
    (Samples.bedrock [] (Raise (OtherError "AccessDeniedException"))
       (Raise (OtherError "AccessDeniedException")))
    {[ "body" := JStr (Samples.operation_text "add_document") ]}
  = {| ChatbotLambda.statusCode := 200;
       ChatbotLambda.headers := ChatbotLambda.ok_headers;
       ChatbotLambda.body :=
         json_dumps (Builtins:=Samples.runtime)
           (JDict [("message", JStr "Document added successfully")]) |}.
Proof.
  assert (Hbody : py_json_loads (py:=Samples.runtime)
                    (default (JStr "{}")
                       (({[ "body" := JStr (Samples.operation_text "add_document") ]}
                         : gmap string json) !! "body"))
                  = Ret (JDict [("operation", JStr "add_document")])).
  { vm_compute. reflexivity. }
  apply (kb_add_document (py:=Samples.runtime) _ _ _ Hbody). reflexivity.
Defined.

Lemma kb_create_success_witness :
  KnowledgeBaseLambda.handler (py:=Samples.runtime)
    (Samples.bedrock [("BEDROCK_ROLE_ARN", "arn:aws:iam::123456789012:role/kb")]
       (Ret (JDict [("knowledgeBase", JDict [("knowledgeBaseId", JStr "KB12345")])]))
       (Raise (OtherError "AccessDeniedException")))
    {[ "body" := JStr (Samples.operation_text "create_knowledge_base") ]}
  = {| ChatbotLambda.statusCode := 200;
       ChatbotLambda.headers := ChatbotLambda.ok_headers;
       ChatbotLambda.body :=
         json_dumps (Builtins:=Samples.runtime)
           (JDict [("knowledge_base_id", JStr "KB12345")]) |}.
Proof.
  assert (Hbody : py_json_loads (py:=Samples.runtime)
                    (default (JStr "{}")
                       (({[ "body" := JStr (Samples.operation_text "create_knowledge_base") ]}
                         : gmap string json) !! "body"))
                  = Ret (JDict [("operation", JStr "create_knowledge_base")])).
  { vm_compute. reflexivity. }
  apply (kb_create_success (py:=Samples.runtime) _ _ _
           [("knowledgeBase", JDict [("knowledgeBaseId", JStr "KB12345")])]
           [("knowledgeBaseId", JStr "KB12345")] (JStr "KB12345") Hbody);
    reflexivity.
Defined.

Lemma kb_create_failure_witness :
  KnowledgeBaseLambda.handler (py:=Samples.runtime)
    (Samples.bedrock [] (Raise (OtherError "AccessDeniedException"))
       (Raise (OtherError "AccessDeniedException")))
    {[ "body" := JStr (Samples.operation_text "create_knowledge_base") ]}
  = {| ChatbotLambda.statusCode := 200;
       ChatbotLambda.headers := ChatbotLambda.ok_headers;
       ChatbotLambda.body :=
         json_dumps (Builtins:=Samples.runtime)
           (JDict [("error",
                    JStr ("Failed to create knowledge base: "
                          +:+ exn_str (Builtins:=Samples.runtime)
                                (OtherError "AccessDeniedException")))]) |}.
Proof.
  assert (Hbody : py_json_loads (py:=Samples.runtime)
                    (default (JStr "{}")
                       (({[ "body" := JStr (Samples.operation_text "create_knowledge_base") ]}
                         : gmap string json) !! "body"))
                  = Ret (JDict [("operation", JStr "create_knowledge_base")])).
  { vm_compute. reflexivity. }
  apply (kb_create_failure (py:=Samples.runtime) _ _ _
           (OtherError "AccessDeniedException") Hbody); reflexivity.
Defined.

Lemma kb_list_witness :
  KnowledgeBaseLambda.handler (py:=Samples.runtime)
    (Samples.bedrock [] (Raise (OtherError "AccessDeniedException"))
       (Ret (KnowledgeBaseLambda.PJson
               (JDict [("knowledgeBaseSummaries",
                        JList [JDict [("knowledgeBaseId", JStr "KB12345");
                                      ("name", JStr "Spec3ChatbotKB")]])]))))
    {[ "body" := JStr (Samples.operation_text "list_knowledge_bases") ]}
  = {| ChatbotLambda.statusCode := 200;
       ChatbotLambda.headers := ChatbotLambda.ok_headers;
       ChatbotLambda.body :=
         json_dumps (Builtins:=Samples.runtime)
           (JDict [("knowledge_bases",
                    JList [JDict [("knowledgeBaseId", JStr "KB12345");
                                  ("name", JStr "Spec3ChatbotKB")]])]) |} /\
  KnowledgeBaseLambda.handler (py:=Samples.runtime)
    (Samples.bedrock [] (Raise (OtherError "AccessDeniedException"))
       (Ret Samples.dated_summaries))
    {[ "body" := JStr (Samples.operation_text "list_knowledge_bases") ]}
  = {| ChatbotLambda.statusCode := 500;
       ChatbotLambda.headers := ChatbotLambda.error_headers;
       ChatbotLambda.body :=
         json_dumps (Builtins:=Samples.runtime)
           (JDict [("error", JStr (exn_str (Builtins:=Samples.runtime) TypeError))]) |}.
Proof.
  assert (Hbody : py_json_loads (py:=Samples.runtime)
                    (default (JStr "{}")
                       (({[ "body" := JStr (Samples.operation_text "list_knowledge_bases") ]}
                         : gmap string json) !! "body"))
                  = Ret (JDict [("operation", JStr "list_knowledge_bases")])).
  { vm_compute. reflexivity. }
  split.
  - destruct (kb_list (py:=Samples.runtime)
                (Samples.bedrock [] (Raise (OtherError "AccessDeniedException"))
                   (Ret (KnowledgeBaseLambda.PJson
                           (JDict [("knowledgeBaseSummaries",
                                    JList [JDict [("knowledgeBaseId", JStr "KB12345");
                                                  ("name", JStr "Spec3ChatbotKB")]])]))))
                {[ "body" := JStr (Samples.operation_text "list_knowledge_bases") ]}
                [("operation", JStr "list_knowledge_bases")] Hbody eq_refl)
      as (Hok & _).
    apply (Hok (KnowledgeBaseLambda.PJson
                  (JDict [("knowledgeBaseSummaries",
                           JList [JDict [("knowledgeBaseId", JStr "KB12345");
                                         ("name", JStr "Spec3ChatbotKB")]])]))
               (KnowledgeBaseLambda.PJson
                  (JList [JDict [("knowledgeBaseId", JStr "KB12345");
                                 ("name", JStr "Spec3ChatbotKB")]])));
      reflexivity.
  - destruct (kb_list (py:=Samples.runtime)
                (Samples.bedrock [] (Raise (OtherError "AccessDeniedException"))
                   (Ret Samples.dated_summaries))
                {[ "body" := JStr (Samples.operation_text "list_knowledge_bases") ]}
                [("operation", JStr "list_knowledge_bases")] Hbody eq_refl)
      as (_ & Hrefused & _).
    apply (Hrefused Samples.dated_summaries
             (KnowledgeBaseLambda.PList
                [KnowledgeBaseLambda.PDict
                   [("knowledgeBaseId", KnowledgeBaseLambda.PJson (JStr "KB12345"));
                    ("name", KnowledgeBaseLambda.PJson (JStr "Spec3ChatbotKB"));
                    ("updatedAt",
                     KnowledgeBaseLambda.PDatetime "2024-05-01 12:00:00+00:00")]]));
      reflexivity.
Defined.

(** The management handler run to the end on an unknown operation. *)
Example kb_invalid_operation_run :
  ChatbotLambda.body
    (KnowledgeBaseLambda.handler (py:=Samples.runtime)
       (Samples.bedrock [] (Raise (OtherError "AccessDeniedException"))
          (Raise (OtherError "AccessDeniedException")))
       {[ "body" := JStr (Samples.operation_text "delete_knowledge_base") ]})
  = Reference.dumps (JDict [("error", JStr "Invalid operation")]).
Proof. vm_compute. reflexivity. Qed.
